(** * Credit-risk scoring service and its presentation client

    A shallow embedding of the scoring pipeline of [API/API.py] (the Flask
    middleware: [simple_risk_score], [compute_percentile],
    [format_prediction], [api_error_handler], [predict_default]) and of the
    local fallback of [client_prediction.py] ([risk_level],
    [compute_local_risk]).

    Numbers.  A Python [float] is an IEEE-754 binary64 value.  A finite
    value is carried as the exact rational it denotes, and every arithmetic
    operation is the exact rational operation followed by [rnd], rounding
    to the nearest binary64 value with ties to even.  [NaN] is kept, since
    it is what pandas stores for a missing cell.  Overflow to an infinity
    is not modelled: the amounts of a client file are far below the
    binary64 range. *)

From Stdlib Require Import QArith Qround Qabs Qpower Lqa Lia ZArith List String Bool.
From Stdlib Require Import DecimalString Floats.
Import ListNotations.

Local Open Scope Q_scope.

(** ** Rounding to an integer, ties to even *)

Definition round_half_even (q : Q) : Z :=
  let f := Qfloor q in
  match Qcompare (q - inject_Z f)%Q (1 # 2)%Q with
  | Lt => f
  | Gt => (f + 1)%Z
  | Eq => if Z.even f then f else (f + 1)%Z
  end.

(** ** Binary64 rounding *)

(** [pow2 e] is 2^e for any integer exponent. *)
Definition pow2 (e : Z) : Q := Qpower 2 e.

(** [ilog2 q], for [0 < q], is the integer [l] with 2^l <= q < 2^(l+1). *)
Definition ilog2 (q : Q) : Z :=
  let l := (Z.log2 (Qnum q) - Z.log2 (Zpos (Qden q)))%Z in
  if Qle_bool (pow2 l) q then l else (l - 1)%Z.

(** Exponent of the unit in the last place of the binary64 format: 53 bits
    of precision, smallest subnormal 2^-1074. *)
Definition ulp_exponent (q : Q) : Z :=
  Z.max (ilog2 (Qabs q) - 52) (-1074).

Definition rnd (q : Q) : Q :=
  if Qeq_bool q 0 then 0
  else
    let u := pow2 (ulp_exponent q) in
    Qred (inject_Z (round_half_even (q / u)) * u).

(** ** The machine's floats, for comparison *)

(** The value of a machine float, and the quotient of two small integers
    as the machine computes it. *)
Definition machine_value (f : PrimFloat.float) : option Q :=
  match Prim2SF f with
  | S754_zero _ => Some 0%Q
  | S754_finite s m e =>
      Some (Qred ((if s then - (1) else 1) * inject_Z (Zpos m) * pow2 e))
  | _ => None
  end.

Definition machine_quotient (nd : Z * Z) : option Q :=
  machine_value (PrimFloat.div (PrimFloat.of_uint63 (Uint63.of_Z (fst nd)))
                               (PrimFloat.of_uint63 (Uint63.of_Z (snd nd)))).

Arguments pow2 : simpl never.
Arguments rnd : simpl never.

(** ** Python floats *)

Inductive pyfloat : Type :=
| Fin (q : Q)
| NaN.

(** A float literal of the source, and [float(n)] of an integer. *)
Definition lit (q : Q) : pyfloat := Fin (rnd q).
Definition of_int (z : Z) : pyfloat := Fin (rnd (inject_Z z)).

Arguments lit : simpl never.
Arguments of_int : simpl never.

(** Comparisons: every comparison with [NaN] is false. *)
Definition Qlt_bool (x y : Q) : bool := negb (Qle_bool y x).

Definition flt (a b : pyfloat) : bool :=
  match a, b with
  | Fin x, Fin y => Qlt_bool x y
  | _, _ => false
  end.

Definition fle (a b : pyfloat) : bool :=
  match a, b with
  | Fin x, Fin y => Qle_bool x y
  | _, _ => false
  end.

Definition fgt (a b : pyfloat) : bool := flt b a.
Definition fge (a b : pyfloat) : bool := fle b a.

Definition feq (a b : pyfloat) : bool :=
  match a, b with
  | Fin x, Fin y => Qeq_bool x y
  | _, _ => false
  end.

(** Two floats denote the same value (unlike [feq], [NaN] is the same value
    as itself). *)
Definition same_float (a b : pyfloat) : Prop :=
  match a, b with
  | Fin x, Fin y => x == y
  | NaN, NaN => True
  | _, _ => False
  end.

(** [bool(x)]: a float is falsy exactly when it equals zero. *)
Definition truthy (x : pyfloat) : bool := negb (feq x (Fin 0)).

(** The builtins [min(a, b)] and [max(a, b)]: the first argument is kept
    unless the second is strictly smaller (resp. larger). *)
Definition py_min (a b : pyfloat) : pyfloat := if flt b a then b else a.
Definition py_max (a b : pyfloat) : pyfloat := if fgt b a then b else a.

Definition fmul (a b : pyfloat) : pyfloat :=
  match a, b with
  | Fin x, Fin y => Fin (rnd (x * y))
  | _, _ => NaN
  end.

Fixpoint pow10 (n : nat) : positive :=
  match n with
  | O => 1%positive
  | S k => (10 * pow10 k)%positive
  end.

(** The builtin [round(x, ndigits)]: the exact value of [x] is rounded to
    [ndigits] decimals, ties to even, and the decimal obtained is read back
    as the nearest float. *)
Definition py_round (x : pyfloat) (ndigits : nat) : pyfloat :=
  match x with
  | Fin q =>
      let s := pow10 ndigits in
      Fin (rnd (round_half_even (q * inject_Z (Zpos s)) # s))
  | NaN => NaN
  end.

(** ** Exceptions and fallible computations *)

(** The classes of the exceptions that the modelled code can meet.  All of
    them derive from [Exception]; the signals by which the interpreter is
    stopped ([KeyboardInterrupt], [SystemExit]) are not faults of the
    program and are left out. *)
Inductive exn_class : Type :=
| KeyError
| ValueError
| TypeError
| ZeroDivisionError
| IndexError
| OtherException (name : string).

(** A raised exception: its class and [str(exc)]. *)
Record exn : Type := mk_exn { exn_cls : exn_class; exn_str : string }.

Inductive outcome (A : Type) : Type :=
| Returns (a : A)
| Raises (e : exn).

Arguments Returns {A} a.
Arguments Raises {A} e.

Definition bind {A B : Type} (c : outcome A) (k : A -> outcome B) : outcome B :=
  match c with
  | Returns a => k a
  | Raises e => Raises e
  end.

Notation "x <- c ;; k" := (bind c (fun x => k))
  (at level 61, c at next level, right associativity).

(** [try: body  except Exception as exc: handler exc]. *)
Definition try_except {A : Type} (body : outcome A) (handler : exn -> outcome A)
  : outcome A :=
  match body with
  | Returns a => Returns a
  | Raises e => handler e
  end.

Local Open Scope string_scope.

Definition key_error (key : string) : exn :=
  mk_exn KeyError ("'" ++ key ++ "'").
Definition zero_division : exn :=
  mk_exn ZeroDivisionError "float division by zero".
Definition not_a_float (s : string) : exn :=
  mk_exn ValueError ("could not convert string to float: '" ++ s ++ "'").
Definition not_comparable : exn :=
  mk_exn TypeError "'<' not supported between instances of 'str' and 'float'".
Definition out_of_bounds : exn :=
  mk_exn IndexError "single positional indexer is out-of-bounds".

(** [a / b] on floats. *)
Definition truediv (a b : pyfloat) : outcome pyfloat :=
  match b with
  | Fin y =>
      if Qeq_bool y 0 then Raises zero_division
      else match a with
           | Fin x => Returns (Fin (rnd (x / y)))
           | NaN => Returns NaN
           end
  | NaN => Returns NaN
  end.

(** What the interpreter and the host provide: the conversions [float(s)]
    and [int(s)] of a text ([None] when they raise [ValueError]), the
    directory of the service's module, from which the default dataset path
    is built, and the columns whose numbers the dataset file writes as
    decimals ([202500.0]): [pd.read_csv] types such a column float64 even
    when all its numbers are whole, which the cells of a table, holding the
    numbers, do not record. *)
Class Runtime : Type := {
  float_of_str : string -> option pyfloat;
  int_of_str : string -> option Z;
  module_dir : string;
  written_as_decimals : string -> bool
}.

(** ** Tables *)

(** A cell of a table read from CSV: a number ([NaN] when missing) or a
    text. *)
Inductive cell : Type :=
| Num (x : pyfloat)
| Text (s : string).

(** A [pd.Series] that is a column of a table, a [pd.Series] that is one
    row of it (indexed by the column names), and a [pd.DataFrame], column
    by column. *)
Definition Column : Type := list cell.
Definition Row : Type := list (string * cell).
Definition DataFrame : Type := list (string * Column).

Fixpoint assoc {A : Type} (key : string) (l : list (string * A)) : option A :=
  match l with
  | [] => None
  | (k, v) :: rest => if String.eqb key k then Some v else assoc key rest
  end.

(** [row.get(key, default)]. *)
Definition row_get (row : Row) (key : string) (default : cell) : cell :=
  match assoc key row with
  | Some v => v
  | None => default
  end.

(** [df.get(key)] and [df[key]]. *)
Definition df_get (df : DataFrame) (key : string) : option Column := assoc key df.

Definition df_getitem (df : DataFrame) (key : string) : outcome Column :=
  match assoc key df with
  | Some c => Returns c
  | None => Raises (key_error key)
  end.

(** [series.empty] and [df.empty]: some axis has length zero. *)
Definition series_empty (s : Column) : bool :=
  match s with
  | [] => true
  | _ :: _ => false
  end.

Definition df_empty (df : DataFrame) : bool :=
  match df with
  | [] => true
  | (_, c) :: _ => series_empty c
  end.

(** [bool(c)], [a or b], [float(c)]. *)
Definition cell_truthy (c : cell) : bool :=
  match c with
  | Num x => truthy x
  | Text s => negb (String.eqb s "")
  end.

Definition py_or (a b : cell) : cell := if cell_truthy a then a else b.

Definition py_float `{Runtime} (c : cell) : outcome pyfloat :=
  match c with
  | Num x => Returns x
  | Text s =>
      match float_of_str s with
      | Some x => Returns x
      | None => Raises (not_a_float s)
      end
  end.

(** [float(row.get(key, 0) or 0)], as both programs read an amount. *)
Definition amount `{Runtime} (row : Row) (key : string) : outcome pyfloat :=
  py_float (py_or (row_get row key (Num (Fin 0))) (Num (Fin 0))).

(** [series == n] for an integer [n]: a text is never equal to it. *)
Definition cell_eq_int (c : cell) (n : Z) : bool :=
  match c with
  | Num x => feq x (Fin (inject_Z n))
  | Text _ => false
  end.

Definition series_eq_int (s : Column) (n : Z) : list bool :=
  map (fun c => cell_eq_int c n) s.

(** [series < value]: pandas raises [TypeError] on a text entry. *)
Fixpoint series_lt (s : Column) (value : pyfloat) : outcome (list bool) :=
  match s with
  | [] => Returns []
  | Num x :: rest =>
      bs <- series_lt rest value ;;
      Returns (flt x value :: bs)
  | Text _ :: _ => Raises not_comparable
  end.

(** [mask.mean()] of a boolean series: the number of [True] over the
    length, as a float. *)
Definition count_true (mask : list bool) : nat :=
  List.length (filter (fun b => b) mask).

Definition mean (mask : list bool) : pyfloat :=
  match mask with
  | [] => NaN
  | _ :: _ =>
      Fin (rnd (inject_Z (Z.of_nat (count_true mask))
                / inject_Z (Z.of_nat (List.length mask))))
  end.

(** [df[mask]]: the rows whose flag is set. *)
Fixpoint select {A : Type} (mask : list bool) (l : list A) : list A :=
  match mask, l with
  | b :: mask', x :: l' => if b then x :: select mask' l' else select mask' l'
  | _, _ => []
  end.

Definition df_filter (df : DataFrame) (mask : list bool) : DataFrame :=
  map (fun nc => (fst nc, select mask (snd nc))) df.

(** *** The types of the columns *)

(** The type [pd.read_csv] gives a column: [object] when an entry is a text
    (or when there is no entry); [float64] when an entry is missing or has
    a fractional part, or when the file writes the numbers as decimals;
    [int64] for whole numbers, [uint64] for whole numbers that are not
    negative and of which one is 2^63 or more (whole numbers that fit
    neither are left as texts by the reader). *)
Inductive dtype : Type :=
| int64
| uint64
| float64
| object.

Definition dtype_eqb (a b : dtype) : bool :=
  match a, b with
  | int64, int64 | uint64, uint64 | float64, float64 | object, object => true
  | _, _ => false
  end.

Definition is_text (c : cell) : bool :=
  match c with
  | Text _ => true
  | Num _ => false
  end.

Definition whole (c : cell) : bool :=
  match c with
  | Num (Fin q) => Qeq_bool (inject_Z (Qfloor q)) q
  | _ => false
  end.

Definition whole_within (lo hi : Z) (c : cell) : bool :=
  match c with
  | Num (Fin q) => Z.leb lo (Qfloor q) && Z.ltb (Qfloor q) hi
  | _ => false
  end.

Definition column_dtype `{Runtime} (name : string) (c : Column) : dtype :=
  if series_empty c || existsb is_text c then object
  else if forallb whole c && negb (written_as_decimals name) then
    if forallb (whole_within (- 2 ^ 63) (2 ^ 63)) c then int64
    else if forallb (whole_within 0 (2 ^ 64)) c then uint64
    else object
  else float64.

Definition dtypes `{Runtime} (df : DataFrame) : list dtype :=
  map (fun nc => column_dtype (fst nc) (snd nc)) df.

(** The one type of a series made of entries of these types: the type they
    all have, [object] when one is [object], and [float64] for integers
    with floats and for [int64] with [uint64]. *)
Definition common_dtype (types : list dtype) : dtype :=
  if existsb (dtype_eqb object) types then object
  else if forallb (dtype_eqb int64) types then int64
  else if forallb (dtype_eqb uint64) types then uint64
  else float64.

(** An integer converted to float64: the nearest binary64 number. *)
Definition astype_float64 (c : cell) : cell :=
  match c with
  | Num (Fin q) => Num (Fin (rnd q))
  | _ => c
  end.

(** The entries of a row, brought to the common type: only integers that
    go with floats (or with integers of the other kind) are converted. *)
Fixpoint interleave (common : dtype) (types : list dtype) (r : Row) : Row :=
  match types, r with
  | t :: types', (name, c) :: r' =>
      (name,
       if dtype_eqb common float64 && negb (dtype_eqb t float64)
       then astype_float64 c else c)
      :: interleave common types' r'
  | _, _ => r
  end.

(** [df.iloc[0]]: the first row, as a series indexed by the column names;
    [IndexError] when the table has no row.  [df] is a selection of rows of
    a table; its columns keep the [types] they have in that table. *)
Fixpoint first_cells (df : DataFrame) : outcome Row :=
  match df with
  | [] => Returns []
  | (name, c) :: rest =>
      match c with
      | [] => Raises out_of_bounds
      | x :: _ =>
          r <- first_cells rest ;;
          Returns ((name, x) :: r)
      end
  end.

Definition iloc0 (types : list dtype) (df : DataFrame) : outcome Row :=
  if df_empty df then Raises out_of_bounds
  else
    r <- first_cells df ;;
    Returns (interleave (common_dtype types) types r).

(** ** The scoring service ([API/API.py]) *)

Module API.
Section Service.
Context `{Runtime}.

(** The dataset files: [None] when [os.path.exists(path)] is false,
    otherwise what [pd.read_csv(path)] gives, a table or an exception. *)
Definition FileSystem : Type := string -> option (outcome DataFrame).


Definition load_dataset (fs : FileSystem) (path : string) : outcome DataFrame :=
  match fs path with
  | None => Returns []
  | Some parsed => parsed
  end.

(** [get_dataset] memoises [load_dataset] by path ([lru_cache]); on a file
    system that does not change it returns what [load_dataset] returns. *)
Definition get_dataset (fs : FileSystem) (path : string) : outcome DataFrame :=
  load_dataset fs path.

Definition simple_risk_score (row : Row) : outcome pyfloat :=
  credit <- amount row "AMT_CREDIT" ;;
  income <- amount row "AMT_INCOME_TOTAL" ;;
  if fle income (Fin 0) then Returns (lit (1 # 2))
  else
    q <- truediv credit income ;;
    let ratio := py_min q (lit 5) in
    p <- truediv ratio (lit 5) ;;
    Returns (py_round (py_min p (lit 1)) 3).

Definition compute_percentile (series : option Column) (value : pyfloat)
  : outcome (option pyfloat) :=
  match series with
  | None => Returns None
  | Some s =>
      if series_empty s then Returns None
      else
        try_except
          (mask <- series_lt s value ;;
           let pct := fmul (mean mask) (Fin 100) in
           Returns (Some (py_round pct 1)))
          (fun _ => Returns None)
  end.

(** One clause of the explanation: a fixed phrase, or a phrase around the
    text of a number. *)
Inductive clause : Type :=
| Phrase (s : string)
| PhraseOf (before : string) (x : pyfloat) (after : string).

Record Prediction : Type := mk_prediction {
  client_id : Z + string;
  probability_default : pyfloat;
  prediction : string;
  risk_level : string;
  ratio_credit_income : option pyfloat;
  credit_percentile : option pyfloat;
  income_percentile : option pyfloat;
  explanation : list clause   (* joined with " | " *)
}.

(** [int(client_id)], falling back to [str(client_id)] when it raises: a
    finite number is truncated towards zero; [NaN] and a text that is not
    an integer are kept as text. *)
Definition as_client_id (c : cell) : Z + string :=
  match c with
  | Num (Fin q) => inl (Z.quot (Qnum q) (Zpos (Qden q)))
  | Num NaN => inr "nan"
  | Text s =>
      match int_of_str s with
      | Some n => inl n
      | None => inr s
      end
  end.

Definition format_prediction (row : Row) (score : pyfloat) (df : DataFrame)
  : outcome Prediction :=
  let decision :=
    if fge score (lit (1 # 2)) then "defaut" else "remboursement_normal" in
  let client_id := as_client_id (row_get row "SK_ID_CURR" (Text "inconnu")) in
  credit <- amount row "AMT_CREDIT" ;;
  income <- amount row "AMT_INCOME_TOTAL" ;;
  ratio <- (if fgt income (Fin 0)
            then q <- truediv credit income ;; Returns (Some (py_round q 3))
            else Returns None) ;;
  pct_credit <- compute_percentile (df_get df "AMT_CREDIT") credit ;;
  pct_income <- compute_percentile (df_get df "AMT_INCOME_TOTAL") income ;;
  let risk_level :=
    if fge score (lit (7 # 10)) then "eleve"
    else if fge score (lit (4 # 10)) then "modere"
    else "faible" in
  let explanation_parts :=
    [ match ratio with
      | Some r => PhraseOf "Ratio credit/revenu = " r ""
      | None => Phrase "Ratio non calculable"
      end;
      match pct_credit with
      | Some p => PhraseOf "Credit percentile ~ " p "%"
      | None => Phrase "Percentile credit indisponible"
      end;
      match pct_income with
      | Some p => PhraseOf "Revenu percentile ~ " p "%"
      | None => Phrase "Percentile revenu indisponible"
      end ] in
  Returns {| client_id := client_id;
             probability_default := score;
             prediction := decision;
             risk_level := risk_level;
             ratio_credit_income := ratio;
             credit_percentile := pct_credit;
             income_percentile := pct_income;
             explanation := explanation_parts |}.

(** *** Routes *)

(** The query string, and what a view returns: a body and a status. *)
Definition Args : Type := list (string * string).

Inductive body : Type :=
| JsonError (error : string)
| JsonPrediction (result : Prediction).

Record response : Type := mk_response { resp_body : body; resp_status : Z }.

(** The decorator [api_error_handler]: any [Exception] raised by the view
    becomes a JSON error with status 500 that carries [str(exc)] (the
    exception is also logged, which the model leaves out). *)
Definition api_error_handler {A : Type} (func : A -> outcome response)
  : A -> outcome response :=
  fun args =>
    try_except (func args)
      (fun exc => Returns (mk_response (JsonError (exn_str exc)) 500)).

(** [request.args.get("client_id", type=int)]: [None] when the parameter is
    absent or is not an integer. *)
Definition arg_client_id (args : Args) : option Z :=
  match assoc "client_id" args with
  | Some s => int_of_str s
  | None => None
  end.

Definition default_csv_path : string :=
  module_dir ++ "/../application_train.csv".

Definition arg_path (args : Args) : string :=
  match assoc "path" args with
  | Some p => p
  | None => default_csv_path
  end.

Definition str_of_int (n : Z) : string := NilZero.string_of_int (Z.to_int n).

Definition dataset_unavailable : response :=
  mk_response (JsonError "Dataset introuvable ou vide") 400.
Definition client_id_required : response :=
  mk_response (JsonError "Paramètre client_id requis") 400.
Definition client_not_found (n : Z) : response :=
  mk_response (JsonError ("Client " ++ str_of_int n ++ " introuvable")) 404.

(** The view of [/predict_default], before decoration. *)
Definition predict_default_view (fs : FileSystem) (args : Args)
  : outcome response :=
  let client_id := arg_client_id args in
  let csv_path := arg_path args in
  df <- get_dataset fs csv_path ;;
  if df_empty df then Returns dataset_unavailable
  else
    match client_id with
    | None => Returns client_id_required
    | Some id =>
        ids <- df_getitem df "SK_ID_CURR" ;;
        let row := df_filter df (series_eq_int ids id) in
        if df_empty row then Returns (client_not_found id)
        else
          row <- iloc0 (dtypes df) row ;;
          score <- simple_risk_score row ;;
          result <- format_prediction row score df ;;
          Returns (mk_response (JsonPrediction result) 200)
    end.

(** The route as served: the view under [api_error_handler].  The response
    cache put around it ([cache.cached]) replays this result for a repeated
    query string and is left out. *)
Definition predict_default (fs : FileSystem) : Args -> outcome response :=
  api_error_handler (predict_default_view fs).

End Service.
End API.

(** ** The presentation client ([client_prediction.py]) *)

Module Client.
Section Fallback.
Context `{Runtime}.

Definition risk_level (score : pyfloat) : string :=
  if fge score (lit (7 # 10)) then "Eleve"
  else if fge score (lit (4 # 10)) then "Modere"
  else "Faible".

(** The dictionary that [compute_local_risk] returns, key by key. *)
Record LocalRisk : Type := mk_local_risk {
  risk_score : pyfloat;
  risk_level_label : string;   (* key "risk_level" *)
  recommendation : string;
  source : string
}.

Definition compute_local_risk (row : Row) : outcome LocalRisk :=
  income <- amount row "AMT_INCOME_TOTAL" ;;
  credit <- amount row "AMT_CREDIT" ;;
  ratio <- (if fgt income (Fin 0) then truediv credit income
            else Returns (lit (1 # 2))) ;;
  p <- truediv ratio (lit 5) ;;
  let score := py_min (py_max p (Fin 0)) (Fin 1) in
  Returns {| risk_score := py_round score 3;
             risk_level_label := risk_level score;
             recommendation :=
               "Score calcule localement sur le ratio credit/revenu.";
             source := "local" |}.

End Fallback.
End Client.

(** ** Vocabulary of the statements *)

(** The probability that the fallback reports (key ["risk_score"]). *)
Definition local_risk_score `{Runtime} (row : Row) : outcome pyfloat :=
  r <- Client.compute_local_risk row ;;
  Returns (Client.risk_score r).

(** The ratio that a prediction reports (key ["ratio_credit_income"]). *)
Definition reported_ratio `{Runtime} (row : Row) (score : pyfloat) (df : DataFrame)
  : outcome (option pyfloat) :=
  p <- API.format_prediction row score df ;;
  Returns (API.ratio_credit_income p).

(** A column all of whose entries are numbers (missing ones included). *)
Definition is_num (c : cell) : bool :=
  match c with
  | Num _ => true
  | Text _ => false
  end.

Definition numeric (s : Column) : bool := forallb is_num s.

(** The percentile as the specification words it: the fraction of the
    reference population strictly below [v], times 100, rounded to one
    decimal. *)
Definition strictly_below (v : pyfloat) (c : cell) : bool :=
  match c with
  | Num x => flt x v
  | Text _ => false
  end.

Definition fraction_below (C : Column) (v : pyfloat) : pyfloat :=
  Fin (rnd (inject_Z (Z.of_nat (List.length (filter (strictly_below v) C)))
            / inject_Z (Z.of_nat (List.length C)))).

Definition spec_percentile (C : Column) (v : pyfloat) : pyfloat :=
  py_round (fmul (fraction_below C v) (Fin 100)) 1.

(** Order on optional percentiles: two nulls compare, two numbers compare
    as floats. *)
Definition percentile_le (a b : option pyfloat) : Prop :=
  match a, b with
  | None, None => True
  | Some x, Some y => fle x y = true
  | _, _ => False
  end.

(** ** Sample data *)

(** A runtime for the examples: [int] and [float] read plain decimal
    integers, which is all that the examples give them. *)
Definition decimal_int (s : string) : option Z :=
  option_map Z.of_int (NilZero.int_of_string s).

Definition example_runtime : Runtime :=
  {| float_of_str := fun s => option_map of_int (decimal_int s);
     int_of_str := decimal_int;
     module_dir := "/srv/API";
     written_as_decimals := fun _ => false |}.

Definition num (z : Z) : cell := Num (Fin (inject_Z z)).

Definition client_row (credit income : Z) : Row :=
  [("SK_ID_CURR", num 1); ("AMT_CREDIT", num credit);
   ("AMT_INCOME_TOTAL", num income)].

(** The two clients of the specification's scenario. *)
Definition two_clients : DataFrame :=
  [("SK_ID_CURR", [num 1; num 2]);
   ("AMT_CREDIT", [num 10000; num 50000]);
   ("AMT_INCOME_TOTAL", [num 20000; num 10000])].

(** A table that has rows but no identifier column. *)
Definition no_id_column : DataFrame :=
  [("AMT_CREDIT", [num 10000]); ("AMT_INCOME_TOTAL", [num 20000])].

(** A table with a header and no row. *)
Definition header_only : DataFrame :=
  [("SK_ID_CURR", []); ("AMT_CREDIT", []); ("AMT_INCOME_TOTAL", [])].

(** A table whose credit column was read as text, one cell being no
    number. *)
Definition mixed_credit : DataFrame :=
  [("SK_ID_CURR", [num 1; num 2]);
   ("AMT_CREDIT", [Text "10000"; Text "abc"]);
   ("AMT_INCOME_TOTAL", [num 20000; num 10000])].

Definition sample_files : API.FileSystem :=
  fun path =>
    if String.eqb path "clients.csv" then Some (Returns two_clients)
    else if String.eqb path "no_id.csv" then Some (Returns no_id_column)
    else if String.eqb path "header.csv" then Some (Returns header_only)
    else if String.eqb path "mixed.csv" then Some (Returns mixed_credit)
    else None.



(** ** Rows of a table, by position *)

(** A table all of whose columns have [n] entries. *)
Definition aligned (df : DataFrame) (n : nat) : Prop :=
  Forall (fun nc => List.length (snd nc) = n) df.

(** The entries at position [k], under the column names; and the row at
    position [k] as [iloc] gives it, a series of one type. *)
Definition row_at (df : DataFrame) (k : nat) : Row :=
  map (fun nc => (fst nc, nth k (snd nc) (Num NaN))) df.

Definition iloc_at `{Runtime} (df : DataFrame) (k : nat) : Row :=
  interleave (common_dtype (dtypes df)) (dtypes df) (row_at df k).

(** The integers that binary64 holds exactly: every integer up to 2^53 in
    magnitude, and beyond it only some. *)
Definition binary64_int (n : Z) : Prop := rnd (inject_Z n) == inject_Z n.

(** The position of the first flag that is set. *)
Fixpoint first_true (mask : list bool) : option nat :=
  match mask with
  | [] => None
  | b :: rest => if b then Some O else option_map S (first_true rest)
  end.

(** ** The page of the presentation client ([client_prediction.py]) *)

Module Page.
Section Page.
Context `{Runtime}.

(** The client's files: [None] when [csv_path.exists()] is false, otherwise
    what [pd.read_csv(csv_path, usecols=usecols)] gives. *)
Definition file_not_found (csv_path : string) : exn :=
  mk_exn (OtherException "FileNotFoundError")
         ("Fichier introuvable : " ++ csv_path).

Definition load_client_dataset (fs : API.FileSystem) (csv_path : string)
  : outcome DataFrame :=
  match fs csv_path with
  | None => Raises (file_not_found csv_path)
  | Some parsed => parsed
  end.

Definition not_numeric : string := "L'ID client doit etre numerique.".
Definition not_in_file : string :=
  "Client introuvable dans application_train.csv (ou filtre trop restrictif).".

(** [get_client_row(client_id_input, df)]: the pair (row, error).  The
    table that is passed is used when there is one; otherwise the default
    file is loaded. *)
Definition get_client_row (fs : API.FileSystem) (DEFAULT_DATA_PATH : string)
           (client_id_input : string) (df : option DataFrame)
  : outcome (option Row * option string) :=
  match int_of_str client_id_input with
  | None => Returns (None, Some not_numeric)
  | Some client_id_int =>
      base_df <- (match df with
                  | Some d => Returns d
                  | None => load_client_dataset fs DEFAULT_DATA_PATH
                  end) ;;
      ids <- df_getitem base_df "SK_ID_CURR" ;;
      let row := df_filter base_df (series_eq_int ids client_id_int) in
      if df_empty row then Returns (None, Some not_in_file)
      else
        r <- iloc0 (dtypes base_df) row ;;
        Returns (Some r, None)
  end.

(** A JSON value, as found under a key of a reply, and a JSON object. *)
#[warnings="-register-all"]
Inductive jvalue : Type :=
| JNull
| JBool (b : bool)
| JNumber (x : pyfloat)
| JString (s : string)
| JArray (items : list jvalue)
| JObject (members : list (string * jvalue)).

Definition jobject : Type := list (string * jvalue).

(** [payload.get(key)] is [None] for an absent key, which is [JNull]. *)
Definition jget (o : jobject) (key : string) (default : jvalue) : jvalue :=
  match assoc key o with
  | Some v => v
  | None => default
  end.

Definition jtruthy (v : jvalue) : bool :=
  match v with
  | JNull => false
  | JBool b => b
  | JNumber x => truthy x
  | JString s => negb (String.eqb s "")
  | JArray items => match items with [] => false | _ :: _ => true end
  | JObject members => match members with [] => false | _ :: _ => true end
  end.

Definition bad_float_argument_of (type : string) : exn :=
  mk_exn TypeError
         ("float() argument must be a string or a real number, not '"
          ++ type ++ "'").

Definition bad_float_argument : exn := bad_float_argument_of "NoneType".

(** [float(v)] of a JSON value. *)
Definition jfloat (v : jvalue) : outcome pyfloat :=
  match v with
  | JNull => Raises bad_float_argument
  | JBool b => Returns (if b then Fin 1 else Fin 0)
  | JNumber x => Returns x
  | JString s =>
      match float_of_str s with
      | Some x => Returns x
      | None => Raises (not_a_float s)
      end
  | JArray _ => Raises (bad_float_argument_of "list")
  | JObject _ => Raises (bad_float_argument_of "dict")
  end.

(** A JSON body that is no object, by the type of what [response.json()]
    gives for it; calling [.get] on it raises an [AttributeError], which is
    no [RequestException]. *)
Inductive other_json : Type :=
| JsonList
| JsonStr
| JsonInt
| JsonFloat
| JsonBool
| JsonNone.

Definition type_name (v : other_json) : string :=
  match v with
  | JsonList => "list"
  | JsonStr => "str"
  | JsonInt => "int"
  | JsonFloat => "float"
  | JsonBool => "bool"
  | JsonNone => "NoneType"
  end.

Definition no_get (v : other_json) : exn :=
  mk_exn (OtherException "AttributeError")
         ("'" ++ type_name v ++ "' object has no attribute 'get'").

(** What [requests.get] and [response.json()] give: a failure of the
    request ([requests.RequestException], with [str(exc)]), or a reply with
    its status, whether its content is empty, and its body read as JSON: an
    object, another JSON value, or a decoding error (a [RequestException]
    as well). *)
Inductive decoded : Type :=
| Json (data : jobject)
| NotObject (v : other_json)
| BadJson (message : string).

Inductive exchange : Type :=
| Failed (message : string)
| Answered (status_code : Z) (content_empty : bool) (json : decoded).

(** What the page shows: the dictionary of [fetch_prediction_from_api]. *)
Record Assessment : Type := mk_assessment {
  risk_score : pyfloat;
  risk_level : string;
  recommendation : jvalue;
  source : string
}.

Definition of_local (r : Client.LocalRisk) : Assessment :=
  {| risk_score := Client.risk_score r;
     risk_level := Client.risk_level_label r;
     recommendation := JString (Client.recommendation r);
     source := Client.source r |}.

(** The common exit of the failing paths: the local score, with the
    message. *)
Definition fall_back (row : Row) (error_msg : jvalue)
  : outcome (Assessment * option jvalue) :=
  r <- Client.compute_local_risk row ;;
  Returns (of_local r, Some error_msg).

Definition unavailable (message : string) : jvalue :=
  JString ("API indisponible: " ++ message).

Definition fetch_prediction_from_api (net : exchange) (row : Row)
  : outcome (Assessment * option jvalue) :=
  match net with
  | Failed message => fall_back row (unavailable message)
  | Answered status_code content_empty json =>
      if Z.eqb status_code 200 then
        match json with
        | BadJson message => fall_back row (unavailable message)
        | NotObject v => Raises (no_get v)
        | Json data =>
            score <- jfloat (jget data "probability_default" (JNumber (Fin 0))) ;;
            Returns
              ({| risk_score := score;
                  risk_level := Client.risk_level score;
                  recommendation :=
                    jget data "explanation"
                         (JString "Recommandation issue de l'API.");
                  source := "api" |},
               None)
        end
      else
        match (if content_empty then Json [] else json) with
        | BadJson message => fall_back row (unavailable message)
        | NotObject v => Raises (no_get v)
        | Json payload =>
            let error := jget payload "error" JNull in
            fall_back row
              (if jtruthy error then error
               else JString ("API status " ++ API.str_of_int status_code))
        end
  end.

End Page.
End Page.

(** ** The client's profile of a row ([client_prediction.py]) *)

(** [abs(x)] and [x // y] on floats.  The floor division is the
    interpreter's: the exact remainder [fmod] is taken off, the difference
    is divided, and the quotient is snapped to the integer below or next to
    it. *)
Definition py_abs (x : pyfloat) : pyfloat :=
  match x with
  | Fin q => Fin (Qabs q)
  | NaN => NaN
  end.

Definition Qtrunc (q : Q) : Z := Z.quot (Qnum q) (Zpos (Qden q)).

Definition fmod (x y : Q) : Q := x - inject_Z (Qtrunc (x / y)) * y.

Definition floordiv_finite (x y : Q) : Q :=
  let mod_ := fmod x y in
  let div := rnd (rnd (x - mod_) / y) in
  let div :=
    if negb (Qeq_bool mod_ 0) && negb (Bool.eqb (Qlt_bool y 0) (Qlt_bool mod_ 0))
    then rnd (div - 1) else div in
  if Qeq_bool div 0 then 0
  else
    let floordiv := inject_Z (Qfloor div) in
    if Qlt_bool (1 # 2) (rnd (div - floordiv)) then rnd (floordiv + 1)
    else floordiv.

Definition floor_division_by_zero : exn :=
  mk_exn ZeroDivisionError "float floor division by zero".

Definition py_floordiv (a b : pyfloat) : outcome pyfloat :=
  match b with
  | Fin y =>
      if Qeq_bool y 0 then Raises floor_division_by_zero
      else match a with
           | Fin x => Returns (Fin (floordiv_finite x y))
           | NaN => Returns NaN
           end
  | NaN => Returns NaN
  end.

Definition nan_to_integer : exn :=
  mk_exn ValueError "cannot convert float NaN to integer".
Definition not_an_int (s : string) : exn :=
  mk_exn ValueError ("invalid literal for int() with base 10: '" ++ s ++ "'").
Definition int_of_none : exn :=
  mk_exn TypeError
         ("int() argument must be a string, a bytes-like object or a real "
          ++ "number, not 'NoneType'").

(** [int(x)] of a float, and of what [row.get(key)] gives ([None] for an
    absent key). *)
Definition int_of_float (x : pyfloat) : outcome Z :=
  match x with
  | Fin q => Returns (Qtrunc q)
  | NaN => Raises nan_to_integer
  end.

Definition py_int `{Runtime} (v : option cell) : outcome Z :=
  match v with
  | None => Raises int_of_none
  | Some (Num x) => int_of_float x
  | Some (Text s) =>
      match int_of_str s with
      | Some n => Returns n
      | None => Raises (not_an_int s)
      end
  end.

(** [pd.notna(v)]: neither [None] nor [NaN]. *)
Definition notna (v : option cell) : bool :=
  match v with
  | None => false
  | Some (Num NaN) => false
  | Some _ => true
  end.

Module Profile.
Section Profile.
Context `{Runtime}.

(** The text of a finite number inside an f-string, which the model does
    not compute. *)
Variable number_text : Q -> string.

(** The dictionary of [build_client_snapshot], key by key. *)
Record Snapshot : Type := mk_snapshot {
  client_id : Z;
  label : string;
  age : option Z;
  income : option pyfloat;
  credit : option pyfloat;
  ratio : option pyfloat;
  family : option cell;
  education : option cell;
  housing : option cell;
  income_type : option cell
}.

(** [x if x else None]. *)
Definition if_truthy (x : pyfloat) : option pyfloat :=
  if truthy x then Some x else None.

Definition build_client_snapshot (row : Row) : outcome Snapshot :=
  income <- amount row "AMT_INCOME_TOTAL" ;;
  credit <- amount row "AMT_CREDIT" ;;
  ratio <- (if fgt income (Fin 0)
            then q <- truediv credit income ;; Returns (Some (py_round q 2))
            else Returns None) ;;
  let days_birth := assoc "DAYS_BIRTH" row in
  age_years <- (if notna days_birth
                then
                  days <- py_float (match days_birth with
                                    | Some c => c
                                    | None => Num NaN
                                    end) ;;
                  years <- py_floordiv (py_abs days) (Fin 365) ;;
                  n <- int_of_float years ;;
                  Returns (Some n)
                else Returns None) ;;
  client_id <- py_int (assoc "SK_ID_CURR" row) ;;
  label_id <- py_int (assoc "SK_ID_CURR" row) ;;
  Returns {| client_id := client_id;
             label := "Client " ++ API.str_of_int label_id;
             age := age_years;
             income := if_truthy income;
             credit := if_truthy credit;
             ratio := ratio;
             family := assoc "NAME_FAMILY_STATUS" row;
             education := assoc "NAME_EDUCATION_TYPE" row;
             housing := assoc "NAME_HOUSING_TYPE" row;
             income_type := assoc "NAME_INCOME_TYPE" row |}.

(** [bool(info.get(key))] and the text of a cell inside an f-string. *)
Definition given (v : option cell) : bool :=
  match v with
  | None => false
  | Some c => cell_truthy c
  end.

Definition cell_text (v : option cell) : string :=
  match v with
  | None => "None"
  | Some (Text s) => s
  | Some (Num NaN) => "nan"
  | Some (Num (Fin q)) => number_text q
  end.

Definition ratio_under_control : string := "Ratio credit/revenu maitrise.".
Definition credit_above_income : string :=
  "Montant du credit superieur au revenu annuel.".
Definition high_income : string := "Revenu annuel eleve.".

(** [build_influence_factors(info)]: the positive points and the points of
    vigilance. *)
Definition build_influence_factors (info : Snapshot)
  : list string * list string :=
  let ratio_points :=
    match ratio info with
    | Some r =>
        if flt r (lit (4 # 10)) then ([ratio_under_control], [])
        else if fgt r (lit 1) then ([], [credit_above_income])
        else ([], [])
    | None => ([], [])
    end in
  let income_points :=
    match income info with
    | Some x => if fgt x (Fin 250000) then [high_income] else []
    | None => []
    end in
  let housing_points :=
    if given (housing info)
    then ["Logement: " ++ cell_text (housing info)]
    else [] in
  ((fst ratio_points ++ income_points ++ housing_points)%list,
   snd ratio_points).

End Profile.
End Profile.

(** ** More sample data *)

(** A client with a birth date and a housing type; one whose credit cell is
    a text that is no number; one whose housing type is missing. *)
Definition profile_row : Row :=
  [("SK_ID_CURR", num 100002); ("AMT_CREDIT", num 406597);
   ("AMT_INCOME_TOTAL", num 202500); ("DAYS_BIRTH", num (-9461));
   ("NAME_HOUSING_TYPE", Text "House / apartment")].

Definition undated_row : Row :=
  [("SK_ID_CURR", num 100003); ("AMT_CREDIT", num 10000);
   ("AMT_INCOME_TOTAL", num 20000); ("NAME_HOUSING_TYPE", Num NaN)].

Definition anonymous_row : Row :=
  [("AMT_CREDIT", num 10000); ("AMT_INCOME_TOTAL", num 20000)].

Definition no_income_row : Row :=
  [("SK_ID_CURR", num 1); ("AMT_CREDIT", num 10000)].

Definition missing_income_row : Row :=
  [("SK_ID_CURR", num 1); ("AMT_CREDIT", num 10000);
   ("AMT_INCOME_TOTAL", Num NaN)].

(** A table whose second client has a credit that is no number, and files
    of which one cannot be parsed. *)
Definition text_credit : DataFrame :=
  [("SK_ID_CURR", [num 1; num 2]);
   ("AMT_CREDIT", [Text "10000"; Text "abc"]);
   ("AMT_INCOME_TOTAL", [num 20000; num 10000])].

Definition parser_error : exn :=
  mk_exn (OtherException "ParserError") "Error tokenizing data.".

Definition more_files : API.FileSystem :=
  fun path =>
    if String.eqb path "clients.csv" then Some (Returns two_clients)
    else if String.eqb path "text.csv" then Some (Returns text_credit)
    else if String.eqb path "broken.csv" then Some (Raises parser_error)
    else None.

Definition no_text : Q -> string := fun _ => "".

(** Rows without identifier: one with a birth date, one whose birth date is
    a text that is no number. *)
Definition anonymous_dated_row : Row :=
  [("AMT_CREDIT", num 10000); ("AMT_INCOME_TOTAL", num 20000);
   ("DAYS_BIRTH", num (-9461))].

Definition anonymous_misdated_row : Row :=
  [("AMT_CREDIT", num 10000); ("AMT_INCOME_TOTAL", num 20000);
   ("DAYS_BIRTH", Text "abc")].

(** A client whose identifier is 2^53 + 1, which binary64 does not hold:
    in a table whose credits are floats, and in a table of integers. *)
Definition beyond_binary64 : Z := 9007199254740993.

Definition large_id_floats : DataFrame :=
  [("SK_ID_CURR", [num beyond_binary64]);
   ("AMT_CREDIT", [Num (Fin (813195 # 2))]);
   ("AMT_INCOME_TOTAL", [num 202500])].

Definition large_id_integers : DataFrame :=
  [("SK_ID_CURR", [num beyond_binary64]);
   ("AMT_CREDIT", [num 406597]);
   ("AMT_INCOME_TOTAL", [num 202500])].

Definition large_id_files : API.FileSystem :=
  fun path =>
    if String.eqb path "floats.csv" then Some (Returns large_id_floats)
    else if String.eqb path "integers.csv" then Some (Returns large_id_integers)
    else None.

(** The runtime of the examples, with the amounts written as decimals in
    the files ([406597.0]), as the dataset of the project writes them. *)
Definition decimal_amounts_runtime : Runtime :=
  {| float_of_str := fun s => option_map of_int (decimal_int s);
     int_of_str := decimal_int;
     module_dir := "/srv/API";
     written_as_decimals :=
       fun name =>
         String.eqb name "AMT_CREDIT" || String.eqb name "AMT_INCOME_TOTAL" |}.

(** ** Proof helpers *)

Ltac push_inject :=
  unfold Z.sub;
  repeat (rewrite inject_Z_plus || rewrite inject_Z_opp);
  change (inject_Z 1) with 1; change (inject_Z 0) with 0.

(** * Properties of the number model *)

(** ** Rounding to an integer *)

Lemma Qfloor_unique (q : Q) (z : Z) :
  inject_Z z <= q -> q < inject_Z (z + 1) -> Qfloor q = z.
Proof.
  intros Hl Hu.
  apply Z.le_antisymm.
  - assert (Hlt : inject_Z (Qfloor q) < inject_Z (z + 1)).
    { eapply Qle_lt_trans; [apply Qfloor_le | exact Hu]. }
    rewrite <- Zlt_Qlt in Hlt. lia.
  - rewrite <- (Qfloor_Z z). apply Qfloor_resp_le. exact Hl.
Qed.

Lemma Qfloor_frac (q : Q) :
  0 <= q - inject_Z (Qfloor q) /\ q - inject_Z (Qfloor q) < 1.
Proof.
  pose proof (Qfloor_le q) as Hl.
  pose proof (Qlt_floor q) as Hu.
  rewrite inject_Z_plus in Hu. change (inject_Z 1) with 1 in Hu.
  split; lra.
Qed.

Lemma round_half_even_le (a b : Q) :
  a <= b -> (round_half_even a <= round_half_even b)%Z.
Proof.
  intros Hab. unfold round_half_even.
  pose proof (Qfloor_resp_le _ _ Hab) as Hf.
  destruct (Qcompare_spec (a - inject_Z (Qfloor a)) (1 # 2)) as [Ha|Ha|Ha];
    destruct (Qcompare_spec (b - inject_Z (Qfloor b)) (1 # 2)) as [Hb|Hb|Hb];
    destruct (Z.even (Qfloor a)) eqn:Ea;
    destruct (Z.even (Qfloor b)) eqn:Eb;
    try lia;
    (destruct (Z.eq_dec (Qfloor a) (Qfloor b)) as [E|E];
     [ rewrite E in *; first [ congruence | lra ] | lia ]).
Qed.

Lemma round_half_even_Z (z : Z) : round_half_even (inject_Z z) = z.
Proof.
  unfold round_half_even. rewrite Qfloor_Z.
  destruct (Qcompare_spec (inject_Z z - inject_Z z) (1 # 2)) as [E|E|E];
    try reflexivity; lra.
Qed.

Lemma round_half_even_comp (a b : Q) :
  a == b -> round_half_even a = round_half_even b.
Proof.
  intros E. apply Z.le_antisymm; apply round_half_even_le; lra.
Qed.

Lemma round_half_even_opp (q : Q) :
  round_half_even (- q) = (- round_half_even q)%Z.
Proof.
  unfold round_half_even.
  destruct (Qfloor_frac q) as [H0 H1].
  destruct (Qeq_dec (q - inject_Z (Qfloor q)) 0) as [Hz|Hnz].
  - assert (Ef : Qfloor (- q) = (- Qfloor q)%Z).
    { apply Qfloor_unique; push_inject; lra. }
    rewrite Ef, inject_Z_opp.
    destruct (Qcompare_spec (- q - - inject_Z (Qfloor q)) (1 # 2));
      destruct (Qcompare_spec (q - inject_Z (Qfloor q)) (1 # 2));
      try lra; reflexivity.
  - assert (Ef : Qfloor (- q) = (- Qfloor q - 1)%Z).
    { apply Qfloor_unique; push_inject; lra. }
    rewrite Ef.
    replace (Z.even (- Qfloor q - 1)) with (negb (Z.even (Qfloor q))).
    2:{ rewrite Z.even_sub, Z.even_opp. simpl.
        destruct (Z.even (Qfloor q)); reflexivity. }
    push_inject.
    destruct (Qcompare_spec (- q - (- inject_Z (Qfloor q) + - (1))) (1 # 2));
      destruct (Qcompare_spec (q - inject_Z (Qfloor q)) (1 # 2));
      try lra; destruct (Z.even (Qfloor q)); simpl; lia.
Qed.

(** The rounded integer is within one half of the value. *)
Lemma round_half_even_near (q : Q) :
  q - (1 # 2) <= inject_Z (round_half_even q) <= q + (1 # 2).
Proof.
  unfold round_half_even.
  destruct (Qfloor_frac q) as [H0 H1].
  destruct (Qcompare_spec (q - inject_Z (Qfloor q)) (1 # 2));
    destruct (Z.even (Qfloor q));
    push_inject; split; lra.
Qed.

(** ** Powers of two and the binary logarithm *)

Lemma pow2_pos (e : Z) : 0 < pow2 e.
Proof. apply Qpower_0_lt. reflexivity. Qed.

Lemma pow2_add (a b : Z) : pow2 (a + b) == pow2 a * pow2 b.
Proof. apply Qpower_plus. discriminate. Qed.

Lemma pow2_sub (a b : Z) : pow2 (a - b) == pow2 a / pow2 b.
Proof. apply Qpower_minus. discriminate. Qed.

Lemma pow2_le (a b : Z) : (a <= b)%Z -> pow2 a <= pow2 b.
Proof. intros Hab. apply Qpower_le_compat_l; [exact Hab | discriminate]. Qed.

Lemma pow2_lt_inv (a b : Z) : pow2 a < pow2 b -> (a < b)%Z.
Proof. intros Hab. eapply Qpower_lt_compat_l_inv; [exact Hab | reflexivity]. Qed.

Lemma pow2_inject (n : Z) : (0 <= n)%Z -> pow2 n == inject_Z (2 ^ n).
Proof. intros Hn. unfold pow2. rewrite Zpower_Qpower by exact Hn. reflexivity. Qed.

Lemma log2_bounds (n : Z) :
  (0 < n)%Z ->
  pow2 (Z.log2 n) <= inject_Z n /\ inject_Z n < 2 * pow2 (Z.log2 n).
Proof.
  intros Hn.
  destruct (Z.log2_spec n Hn) as [Hl Hu].
  pose proof (Z.log2_nonneg n) as H0.
  rewrite Zle_Qle in Hl. rewrite Zlt_Qlt in Hu.
  rewrite <- pow2_inject in Hl by exact H0.
  rewrite <- pow2_inject in Hu by lia.
  unfold Z.succ in Hu. rewrite pow2_add in Hu.
  change (pow2 1) with 2 in Hu.
  split; lra.
Qed.

Lemma ilog2_spec (q : Q) :
  0 < q -> pow2 (ilog2 q) <= q /\ q < pow2 (ilog2 q + 1).
Proof.
  intros Hq. unfold ilog2.
  assert (Hn : (0 < Qnum q)%Z).
  { unfold Qlt in Hq. simpl in Hq. lia. }
  destruct (log2_bounds (Qnum q) Hn) as [HA1 HA2].
  destruct (log2_bounds (Zpos (Qden q)) eq_refl) as [HB1 HB2].
  set (A := pow2 (Z.log2 (Qnum q))) in *.
  set (B := pow2 (Z.log2 (Zpos (Qden q)))) in *.
  set (l := (Z.log2 (Qnum q) - Z.log2 (Zpos (Qden q)))%Z).
  assert (HA : 0 < A) by apply pow2_pos.
  assert (HB : 0 < B) by apply pow2_pos.
  assert (El : pow2 l == A / B) by apply pow2_sub.
  assert (Eq : q * inject_Z (Zpos (Qden q)) == inject_Z (Qnum q)).
  { destruct q as [n d]. simpl. rewrite (Qmake_Qdiv n d). field.
    intro E. discriminate E. }
  set (N := inject_Z (Qnum q)) in *.
  set (D := inject_Z (Zpos (Qden q))) in *.
  destruct (Qle_bool (pow2 l) q) eqn:Ht.
  - apply Qle_bool_iff in Ht. split; [exact Ht|].
    rewrite pow2_add, El. change (pow2 1) with 2.
    setoid_replace (A / B * 2) with ((2 * A) / B) by (field; lra).
    apply Qlt_shift_div_l; [exact HB | nra].
  - assert (Hlt : q < pow2 l).
    { apply Qnot_le_lt. intro Hc. apply Qle_bool_iff in Hc. congruence. }
    split.
    + rewrite pow2_sub, El. change (pow2 1) with 2.
      setoid_replace (A / B / 2) with (A / (2 * B)) by (field; lra).
      apply Qle_shift_div_r; [lra | nra].
    + replace (l - 1 + 1)%Z with l by lia. exact Hlt.
Qed.

Lemma ilog2_unique (q : Q) (l : Z) :
  pow2 l <= q -> q < pow2 (l + 1) -> ilog2 q = l.
Proof.
  intros Hl Hu.
  assert (Hq : 0 < q) by (pose proof (pow2_pos l); lra).
  destruct (ilog2_spec q Hq) as [Sl Su].
  assert (l < ilog2 q + 1)%Z by (apply pow2_lt_inv; lra).
  assert (ilog2 q < l + 1)%Z by (apply pow2_lt_inv; lra).
  lia.
Qed.

Lemma ilog2_comp (a b : Q) : 0 < a -> a == b -> ilog2 a = ilog2 b.
Proof.
  intros Ha E. symmetry.
  destruct (ilog2_spec a Ha) as [Sl Su].
  apply ilog2_unique; lra.
Qed.

Lemma ilog2_le (a b : Q) : 0 < a -> a <= b -> (ilog2 a <= ilog2 b)%Z.
Proof.
  intros Ha Hab.
  destruct (ilog2_spec a Ha) as [Sl _].
  destruct (ilog2_spec b) as [_ Su]; [lra|].
  assert (ilog2 a < ilog2 b + 1)%Z by (apply pow2_lt_inv; lra).
  lia.
Qed.

(** ** Rounding to binary64 *)

Lemma Qabs_nonzero_pos (q : Q) : ~ q == 0 -> 0 < Qabs q.
Proof.
  intros Hq. apply Qabs_case; intros; lra.
Qed.

Lemma ulp_exponent_comp (a b : Q) :
  ~ a == 0 -> a == b -> ulp_exponent a = ulp_exponent b.
Proof.
  intros Ha E. unfold ulp_exponent.
  rewrite (ilog2_comp (Qabs a) (Qabs b)); [reflexivity | |].
  - apply Qabs_nonzero_pos. exact Ha.
  - rewrite E. reflexivity.
Qed.

Lemma ulp_exponent_pos (q : Q) :
  0 < q -> ulp_exponent q = Z.max (ilog2 q - 52) (-1074).
Proof.
  intros Hq. unfold ulp_exponent.
  rewrite (ilog2_comp (Qabs q) q); [reflexivity | |].
  - rewrite Qabs_pos; lra.
  - apply Qabs_pos. lra.
Qed.

Lemma ulp_exponent_opp (q : Q) :
  ~ q == 0 -> ulp_exponent (- q) = ulp_exponent q.
Proof.
  intros Hq. unfold ulp_exponent.
  rewrite (ilog2_comp (Qabs (- q)) (Qabs q)); [reflexivity | |].
  - rewrite Qabs_opp. apply Qabs_nonzero_pos. exact Hq.
  - apply Qabs_opp.
Qed.

Lemma rnd_zero (q : Q) : q == 0 -> rnd q = 0.
Proof.
  intros E. unfold rnd.
  apply Qeq_bool_iff in E. rewrite E. reflexivity.
Qed.

Lemma rnd_nonzero (q : Q) :
  ~ q == 0 ->
  rnd q == inject_Z (round_half_even (q / pow2 (ulp_exponent q)))
           * pow2 (ulp_exponent q).
Proof.
  intros Hq. unfold rnd.
  destruct (Qeq_bool q 0) eqn:E.
  - apply Qeq_bool_iff in E. contradiction.
  - apply Qred_correct.
Qed.

(** [rnd] does not depend on how its argument is written, and its result is
    in lowest terms: equal values give the same result. *)
Lemma rnd_comp (a b : Q) : a == b -> rnd a = rnd b.
Proof.
  intros E. unfold rnd.
  destruct (Qeq_bool a 0) eqn:Ea; destruct (Qeq_bool b 0) eqn:Eb.
  - reflexivity.
  - apply Qeq_bool_iff in Ea. apply Qeq_bool_neq in Eb. exfalso. apply Eb. lra.
  - apply Qeq_bool_iff in Eb. apply Qeq_bool_neq in Ea. exfalso. apply Ea. lra.
  - apply Qeq_bool_neq in Ea.
    rewrite (ulp_exponent_comp a b Ea E).
    apply Qred_complete.
    rewrite (round_half_even_comp (a / pow2 (ulp_exponent b))
                                  (b / pow2 (ulp_exponent b))).
    + reflexivity.
    + rewrite E. reflexivity.
Qed.

Lemma rnd_opp (q : Q) : rnd (- q) == - rnd q.
Proof.
  destruct (Qeq_dec q 0) as [Hz|Hnz].
  - rewrite (rnd_zero q Hz), (rnd_zero (- q)); lra.
  - rewrite rnd_nonzero by lra. rewrite (rnd_nonzero q Hnz).
    rewrite (ulp_exponent_opp q Hnz).
    rewrite (round_half_even_comp (- q / pow2 (ulp_exponent q))
                                  (- (q / pow2 (ulp_exponent q)))).
    + rewrite round_half_even_opp, inject_Z_opp. ring.
    + field. pose proof (pow2_pos (ulp_exponent q)). lra.
Qed.

Lemma rnd_pos_nonneg (q : Q) : 0 < q -> 0 <= rnd q.
Proof.
  intros Hq. rewrite rnd_nonzero by lra.
  pose proof (pow2_pos (ulp_exponent q)) as Hu.
  assert (H0 : (0 <= round_half_even (q / pow2 (ulp_exponent q)))%Z).
  { change 0%Z with (round_half_even (inject_Z 0)) at 1.
    apply round_half_even_le. change (inject_Z 0) with 0.
    apply Qle_shift_div_l; [exact Hu | lra]. }
  rewrite Zle_Qle in H0. change (inject_Z 0) with 0 in H0. nra.
Qed.

Lemma scaled_below (q : Q) :
  0 < q -> q / pow2 (ulp_exponent q) <= pow2 53.
Proof.
  intros Hq. rewrite (ulp_exponent_pos q Hq).
  set (e := Z.max (ilog2 q - 52) (-1074)).
  destruct (ilog2_spec q Hq) as [_ Su].
  assert (Hle : pow2 (ilog2 q + 1) <= pow2 (53 + e)) by (apply pow2_le; lia).
  rewrite (pow2_add 53 e) in Hle.
  apply Qle_shift_div_r; [apply pow2_pos|].
  apply Qlt_le_weak, (Qlt_le_trans _ _ _ Su Hle).
Qed.

Lemma scaled_above (q : Q) :
  0 < q -> (-1074 < ulp_exponent q)%Z -> pow2 52 <= q / pow2 (ulp_exponent q).
Proof.
  intros Hq. rewrite (ulp_exponent_pos q Hq). intros He.
  replace (Z.max (ilog2 q - 52) (-1074)) with (ilog2 q - 52)%Z by lia.
  destruct (ilog2_spec q Hq) as [Sl _].
  replace (ilog2 q) with (52 + (ilog2 q - 52))%Z in Sl at 1 by lia.
  rewrite (pow2_add 52) in Sl.
  apply Qle_shift_div_l; [apply pow2_pos | exact Sl].
Qed.

Lemma round_half_even_pow2 (n : Z) :
  (0 <= n)%Z -> round_half_even (pow2 n) = (2 ^ n)%Z.
Proof.
  intros Hn.
  rewrite (round_half_even_comp _ _ (pow2_inject n Hn)).
  apply round_half_even_Z.
Qed.

Lemma rnd_pos_le (a b : Q) : 0 < a -> a <= b -> rnd a <= rnd b.
Proof.
  intros Ha Hab.
  assert (Hb : 0 < b) by lra.
  rewrite (rnd_nonzero a), (rnd_nonzero b) by lra.
  pose proof (pow2_pos (ulp_exponent a)) as Hua.
  pose proof (pow2_pos (ulp_exponent b)) as Hub.
  assert (Hee : (ulp_exponent a <= ulp_exponent b)%Z).
  { rewrite (ulp_exponent_pos a Ha), (ulp_exponent_pos b Hb).
    pose proof (ilog2_le a b Ha Hab). lia. }
  assert (Hmin : (-1074 <= ulp_exponent a)%Z) by (unfold ulp_exponent; lia).
  destruct (Z.eq_dec (ulp_exponent a) (ulp_exponent b)) as [E|E].
  - rewrite E in *.
    assert (Hr : (round_half_even (a / pow2 (ulp_exponent b))
                  <= round_half_even (b / pow2 (ulp_exponent b)))%Z).
    { apply round_half_even_le.
      apply Qmult_le_compat_r; [exact Hab|].
      apply Qlt_le_weak, Qinv_lt_0_compat, Hub. }
    rewrite Zle_Qle in Hr. nra.
  - assert (Hra : (round_half_even (a / pow2 (ulp_exponent a)) <= 2 ^ 53)%Z).
    { rewrite <- (round_half_even_pow2 53) by lia.
      apply round_half_even_le, scaled_below, Ha. }
    assert (Hrb : (2 ^ 52 <= round_half_even (b / pow2 (ulp_exponent b)))%Z).
    { rewrite <- (round_half_even_pow2 52) by lia.
      apply round_half_even_le, scaled_above; [exact Hb | lia]. }
    rewrite Zle_Qle in Hra, Hrb.
    rewrite <- !pow2_inject in Hra, Hrb by lia.
    assert (Hstep : pow2 53 * pow2 (ulp_exponent a)
                    <= pow2 52 * pow2 (ulp_exponent b)).
    { rewrite <- !pow2_add. apply pow2_le. lia. }
    pose proof (pow2_pos 52). pose proof (pow2_pos 53).
    apply Qle_trans with (pow2 53 * pow2 (ulp_exponent a)); [nra|].
    apply Qle_trans with (pow2 52 * pow2 (ulp_exponent b)); [exact Hstep | nra].
Qed.

(** Rounding to binary64 is monotone. *)
Lemma rnd_le (a b : Q) : a <= b -> rnd a <= rnd b.
Proof.
  intros Hab.
  destruct (Q_dec a 0) as [[Ha|Ha]|Ha]; destruct (Q_dec b 0) as [[Hb|Hb]|Hb];
    try lra.
  - (* both negative *)
    assert (H1 : rnd (- b) <= rnd (- a)) by (apply rnd_pos_le; lra).
    rewrite !rnd_opp in H1. lra.
  - (* a < 0 < b *)
    pose proof (rnd_pos_nonneg (- a)) as H1. rewrite rnd_opp in H1.
    pose proof (rnd_pos_nonneg b Hb). lra.
  - pose proof (rnd_pos_nonneg (- a)) as H1. rewrite rnd_opp in H1.
    rewrite (rnd_zero b Hb). lra.
  - apply rnd_pos_le; assumption.
  - rewrite (rnd_zero a Ha). apply rnd_pos_nonneg, Hb.
  - rewrite (rnd_zero a Ha), (rnd_zero b Hb). lra.
Qed.

(** Integers up to 2^53 in magnitude are binary64 values. *)
Lemma rnd_small_1 : rnd 1 = 1.
Proof. reflexivity. Qed.

(** ** The rounding of the model is the rounding of the machine *)

Lemma rnd_agrees_with_machine_floats :
  map machine_quotient [(1, 10); (4, 10); (7, 10); (1, 3); (10000, 30000);
                        (50000, 10000); (1, 1000000); (123456789, 1000)]%Z
  = map (fun nd => Some (rnd (inject_Z (fst nd) / inject_Z (snd nd))))
        [(1, 10); (4, 10); (7, 10); (1, 3); (10000, 30000);
         (50000, 10000); (1, 1000000); (123456789, 1000)]%Z.
Proof. vm_compute. reflexivity. Qed.

(** * Properties of the scoring pipeline *)

(** ** Comparisons of floats *)

Lemma Qlt_bool_iff (x y : Q) : Qlt_bool x y = true <-> x < y.
Proof.
  unfold Qlt_bool. rewrite negb_true_iff. split.
  - intros E. apply Qnot_le_lt. intro Hc. apply Qle_bool_iff in Hc. congruence.
  - intros Hlt. destruct (Qle_bool y x) eqn:E; [|reflexivity].
    apply Qle_bool_iff in E. lra.
Qed.

Lemma Qlt_bool_false_iff (x y : Q) : Qlt_bool x y = false <-> y <= x.
Proof.
  unfold Qlt_bool. rewrite negb_false_iff. apply Qle_bool_iff.
Qed.

Lemma flt_Fin (x y : Q) : flt (Fin x) (Fin y) = true <-> x < y.
Proof. apply Qlt_bool_iff. Qed.

Lemma fle_Fin (x y : Q) : fle (Fin x) (Fin y) = true <-> x <= y.
Proof. apply Qle_bool_iff. Qed.

Lemma fle_finite (a b : pyfloat) :
  fle a b = true -> exists x y, a = Fin x /\ b = Fin y /\ x <= y.
Proof.
  destruct a as [x|], b as [y|]; simpl; try discriminate.
  intros E. exists x, y. repeat split. apply Qle_bool_iff, E.
Qed.

Lemma flt_finite (a b : pyfloat) :
  flt a b = true -> exists x y, a = Fin x /\ b = Fin y /\ x < y.
Proof.
  destruct a as [x|], b as [y|]; simpl; try discriminate.
  intros E. exists x, y. repeat split. apply Qlt_bool_iff, E.
Qed.

Lemma fle_not_flt (a b : pyfloat) : fle a b = true -> flt b a = false.
Proof.
  intros E. destruct (fle_finite a b E) as (x & y & -> & -> & Hxy).
  apply Qlt_bool_false_iff, Hxy.
Qed.

(** ** Columns and percentiles *)

Lemma series_lt_numeric (s : Column) (v : pyfloat) :
  numeric s = true -> series_lt s v = Returns (map (strictly_below v) s).
Proof.
  induction s as [|c s IH]; simpl; [reflexivity|].
  destruct c as [x|t]; simpl; [|discriminate].
  intros Hs. rewrite (IH Hs). reflexivity.
Qed.

Lemma series_lt_text (s : Column) (v : pyfloat) :
  numeric s = false -> series_lt s v = Raises not_comparable.
Proof.
  induction s as [|c s IH]; simpl; [discriminate|].
  destruct c as [x|t]; simpl; [|reflexivity].
  intros Hs. rewrite (IH Hs). reflexivity.
Qed.

Lemma count_true_map {A : Type} (f : A -> bool) (l : list A) :
  count_true (map f l) = List.length (filter f l).
Proof.
  unfold count_true.
  induction l as [|a l IH]; simpl; [reflexivity|].
  destruct (f a); simpl; rewrite IH; reflexivity.
Qed.

Lemma mean_strictly_below (s : Column) (v : pyfloat) :
  s <> [] -> mean (map (strictly_below v) s) = fraction_below s v.
Proof.
  intros Hs. destruct s as [|c s]; [contradiction|].
  unfold mean, fraction_below.
  change (map (strictly_below v) (c :: s))
    with (strictly_below v c :: map (strictly_below v) s).
  cbv iota.
  change (strictly_below v c :: map (strictly_below v) s)
    with (map (strictly_below v) (c :: s)).
  rewrite count_true_map, length_map. reflexivity.
Qed.

Section Pipeline.
Context `{Runtime}.

Lemma compute_percentile_numeric (s : Column) (v : pyfloat) :
  s <> [] -> numeric s = true ->
  API.compute_percentile (Some s) v = Returns (Some (spec_percentile s v)).
Proof.
  intros Hs Hn. unfold API.compute_percentile.
  destruct s as [|c s]; [contradiction|]. cbv [series_empty].
  rewrite (series_lt_numeric _ v Hn). cbn [bind try_except].
  rewrite mean_strictly_below by discriminate. reflexivity.
Qed.

Lemma compute_percentile_text (s : Column) (v : pyfloat) :
  numeric s = false -> API.compute_percentile (Some s) v = Returns None.
Proof.
  intros Hn. unfold API.compute_percentile.
  destruct s as [|c s]; [reflexivity|]. cbv [series_empty].
  rewrite (series_lt_text _ v Hn). reflexivity.
Qed.

(** [compute_percentile] never raises. *)
Lemma compute_percentile_returns (series : option Column) (v : pyfloat) :
  exists r, API.compute_percentile series v = Returns r.
Proof.
  destruct series as [s|]; [|eexists; reflexivity].
  destruct s as [|c s]; [eexists; reflexivity|].
  destruct (numeric (c :: s)) eqn:Hn.
  - eexists. apply compute_percentile_numeric; [discriminate | exact Hn].
  - eexists. apply compute_percentile_text, Hn.
Qed.

(** ** Rows whose amounts can be read *)

Lemma format_prediction_returns (row : Row) (score : pyfloat) (df : DataFrame)
      (credit income : pyfloat) :
  amount row "AMT_CREDIT" = Returns credit ->
  amount row "AMT_INCOME_TOTAL" = Returns income ->
  exists p,
    API.format_prediction row score df = Returns p /\
    API.probability_default p = score /\
    API.prediction p =
      (if fge score (lit (1 # 2)) then "defaut" else "remboursement_normal") /\
    API.risk_level p =
      (if fge score (lit (7 # 10)) then "eleve"
       else if fge score (lit (4 # 10)) then "modere" else "faible") /\
    (fgt income (Fin 0) = false -> API.ratio_credit_income p = None) /\
    (fgt income (Fin 0) = true ->
     exists q, truediv credit income = Returns q /\
               API.ratio_credit_income p = Some (py_round q 3)).
Proof.
  intros Hc Hi. unfold API.format_prediction.
  rewrite Hc, Hi. cbn [bind].
  destruct (compute_percentile_returns (df_get df "AMT_CREDIT") credit)
    as [pc Epc].
  destruct (compute_percentile_returns (df_get df "AMT_INCOME_TOTAL") income)
    as [pi Epi].
  destruct (fgt income (Fin 0)) eqn:Hpos.
  - destruct (flt_finite _ _ Hpos) as (z & i & Ez & -> & Hzi).
    injection Ez as <-.
    assert (Hnz : Qeq_bool i 0 = false).
    { destruct (Qeq_bool i 0) eqn:E; [|reflexivity].
      apply Qeq_bool_iff in E. lra. }
    unfold truediv. rewrite Hnz.
    destruct credit as [c|]; cbn [bind]; rewrite Epc, Epi; cbn [bind];
      eexists; (split; [reflexivity|]); cbn [API.probability_default API.prediction API.risk_level
           API.ratio_credit_income];
      repeat split; try reflexivity; try discriminate;
      intros _; eexists; split; reflexivity.
  - cbn [bind]. rewrite Epc, Epi. cbn [bind].
    eexists. split; [reflexivity|]. cbn [API.probability_default API.prediction API.risk_level
           API.ratio_credit_income].
    repeat split; try reflexivity; discriminate.
Qed.

End Pipeline.

Section ScoreAndLabels.
Context `{Runtime}.

(** C5.  For a client row whose income is at most zero, the risk score is
    exactly 0.5 and the prediction reports no credit/income ratio. *)
Theorem nonpositive_income_gives_neutral_score
        (row : Row) (credit income : pyfloat) :
  amount row "AMT_CREDIT" = Returns credit ->
  amount row "AMT_INCOME_TOTAL" = Returns income ->
  fle income (Fin 0) = true ->
  API.simple_risk_score row = Returns (Fin (1 # 2)) /\
  forall score df, reported_ratio row score df = Returns None.
Proof.
  intros Hc Hi Hle. split.
  - unfold API.simple_risk_score. rewrite Hc, Hi. cbn [bind].
    rewrite Hle. reflexivity.
  - intros score df. unfold reported_ratio.
    destruct (format_prediction_returns row score df credit income Hc Hi)
      as (p & Ep & _ & _ & _ & Hnone & _).
    rewrite Ep. cbn [bind]. f_equal. apply Hnone.
    unfold fgt. apply fle_not_flt, Hle.
Qed.

(** C2, as the code has it.  For a client row whose income is positive, the
    ratio that the prediction reports is the quotient credit / income
    rounded to three decimals; no cap is applied to it. *)
Theorem reported_ratio_is_rounded_quotient
        (row : Row) (score : pyfloat) (df : DataFrame)
        (credit income : pyfloat) :
  amount row "AMT_CREDIT" = Returns credit ->
  amount row "AMT_INCOME_TOTAL" = Returns income ->
  fgt income (Fin 0) = true ->
  exists q,
    truediv credit income = Returns q /\
    reported_ratio row score df = Returns (Some (py_round q 3)).
Proof.
  intros Hc Hi Hpos. unfold reported_ratio.
  destruct (format_prediction_returns row score df credit income Hc Hi)
    as (p & Ep & _ & _ & _ & _ & Hsome).
  destruct (Hsome Hpos) as (q & Eq & Er).
  exists q. split; [exact Eq|].
  rewrite Ep. cbn [bind]. f_equal. exact Er.
Qed.

(** C6.  For a score in [0,1], the decision is "defaut" exactly when the
    score is at least 0.5 and "remboursement_normal" otherwise; the tier is
    "eleve" exactly when the score is at least 0.7, "modere" exactly when
    it is at least 0.4 and below 0.7, "faible" exactly when it is below
    0.4: every score gets one tier and only one. *)
Theorem decision_and_tier_thresholds
        (row : Row) (score : pyfloat) (df : DataFrame)
        (credit income : pyfloat) :
  amount row "AMT_CREDIT" = Returns credit ->
  amount row "AMT_INCOME_TOTAL" = Returns income ->
  fle (Fin 0) score = true ->
  fle score (Fin 1) = true ->
  exists p,
    API.format_prediction row score df = Returns p /\
    (API.prediction p = "defaut" <-> fge score (lit (1 # 2)) = true) /\
    (API.prediction p = "remboursement_normal"
     <-> flt score (lit (1 # 2)) = true) /\
    (API.risk_level p = "eleve" <-> fge score (lit (7 # 10)) = true) /\
    (API.risk_level p = "modere"
     <-> fge score (lit (4 # 10)) = true /\ flt score (lit (7 # 10)) = true) /\
    (API.risk_level p = "faible" <-> flt score (lit (4 # 10)) = true).
Proof.
  intros Hc Hi H0 H1.
  destruct (format_prediction_returns row score df credit income Hc Hi)
    as (p & Ep & _ & Ed & Et & _).
  exists p. split; [exact Ep|].
  destruct (fle_finite _ _ H0) as (z & s & _ & -> & _).
  assert (Hlit : rnd (4 # 10) < rnd (7 # 10)) by (vm_compute; reflexivity).
  rewrite Ed, Et. clear Ep Ed Et Hc Hi H0 H1.
  unfold fge, fle, flt, lit, Qlt_bool.
  revert Hlit.
  generalize (rnd (7 # 10)) (rnd (4 # 10)) (rnd (1 # 2)).
  intros t7 t4 t5 Hlit.
  assert (H74 : Qle_bool t7 s = true -> Qle_bool t4 s = true).
  { rewrite !Qle_bool_iff. lra. }
  destruct (Qle_bool t5 s);
    destruct (Qle_bool t7 s);
    destruct (Qle_bool t4 s);
    cbn [negb];
    try (specialize (H74 eq_refl); discriminate H74);
    clear H74 Hlit;
    repeat match goal with
           | |- _ /\ _ => split
           | |- _ <-> _ => split
           end;
    intros E; try discriminate E; try reflexivity;
      try (destruct E; discriminate);
      try (split; reflexivity).
Qed.

End ScoreAndLabels.

(** ** Percentiles *)

Lemma filter_length_le {A : Type} (f g : A -> bool) (l : list A) :
  (forall a, f a = true -> g a = true) ->
  (List.length (filter f l) <= List.length (filter g l))%nat.
Proof.
  intros Hfg. induction l as [|a l IH]; simpl; [lia|].
  destruct (f a) eqn:Ef.
  - rewrite (Hfg a Ef). simpl. lia.
  - destruct (g a); simpl; lia.
Qed.

Lemma strictly_below_le (v1 v2 : pyfloat) (c : cell) :
  fle v1 v2 = true -> strictly_below v1 c = true -> strictly_below v2 c = true.
Proof.
  intros Hv. destruct (fle_finite _ _ Hv) as (a & b & -> & -> & Hab).
  destruct c as [[x|]|t]; simpl; try discriminate.
  rewrite !Qlt_bool_iff. lra.
Qed.

Lemma py_round_le (x y : Q) (n : nat) :
  x <= y -> fle (py_round (Fin x) n) (py_round (Fin y) n) = true.
Proof.
  intros Hxy. unfold py_round. apply fle_Fin, rnd_le.
  assert (Hs : 0 < inject_Z (Zpos (pow10 n))) by reflexivity.
  assert (Hr : (round_half_even (x * inject_Z (Zpos (pow10 n)))
                <= round_half_even (y * inject_Z (Zpos (pow10 n))))%Z).
  { apply round_half_even_le. nra. }
  unfold Qle. simpl. nia.
Qed.

Lemma fraction_below_le (s : Column) (v1 v2 : pyfloat) :
  s <> [] -> fle v1 v2 = true ->
  exists a b, fraction_below s v1 = Fin a /\ fraction_below s v2 = Fin b
              /\ 0 <= a /\ a <= b.
Proof.
  intros Hs Hv. unfold fraction_below.
  set (k1 := List.length (filter (strictly_below v1) s)).
  set (k2 := List.length (filter (strictly_below v2) s)).
  assert (Hk : (k1 <= k2)%nat).
  { apply filter_length_le. intro c. apply strictly_below_le, Hv. }
  assert (Hn : (0 < List.length s)%nat).
  { destruct s; [contradiction | simpl; lia]. }
  assert (HnQ : 0 < inject_Z (Z.of_nat (List.length s))).
  { change 0 with (inject_Z 0). rewrite <- Zlt_Qlt. lia. }
  assert (Hk1 : 0 <= inject_Z (Z.of_nat k1)).
  { change 0 with (inject_Z 0). rewrite <- Zle_Qle. lia. }
  assert (HkQ : inject_Z (Z.of_nat k1) <= inject_Z (Z.of_nat k2)).
  { rewrite <- Zle_Qle. lia. }
  pose proof (Qinv_lt_0_compat _ HnQ) as Hinv.
  eexists. eexists. split; [reflexivity|]. split; [reflexivity|].
  split.
  - rewrite <- (rnd_zero 0) by reflexivity. apply rnd_le.
    unfold Qdiv. nra.
  - apply rnd_le. unfold Qdiv. nra.
Qed.

Lemma spec_percentile_le (s : Column) (v1 v2 : pyfloat) :
  s <> [] -> fle v1 v2 = true ->
  fle (spec_percentile s v1) (spec_percentile s v2) = true.
Proof.
  intros Hs Hv. unfold spec_percentile.
  destruct (fraction_below_le s v1 v2 Hs Hv) as (a & b & -> & -> & Ha & Hab).
  cbn [fmul]. apply py_round_le, rnd_le. lra.
Qed.

Section Percentile.
Context `{Runtime}.


(** C8.  For a non-empty reference column and values v1 <= v2, the
    percentile of v1 is at most the percentile of v2. *)
Theorem percentile_monotone (s : Column) (v1 v2 : pyfloat) :
  s <> [] ->
  fle v1 v2 = true ->
  exists p1 p2,
    API.compute_percentile (Some s) v1 = Returns p1 /\
    API.compute_percentile (Some s) v2 = Returns p2 /\
    percentile_le p1 p2 /\
    (numeric s = true -> p1 <> None /\ p2 <> None).
Proof.
  intros Hs Hv. destruct (numeric s) eqn:Hn.
  - exists (Some (spec_percentile s v1)), (Some (spec_percentile s v2)).
    repeat split; try (apply compute_percentile_numeric; assumption);
      try discriminate.
    apply spec_percentile_le; assumption.
  - exists None, None.
    repeat split; try (apply compute_percentile_text; assumption);
      discriminate.
Qed.

End Percentile.

(** ** The prediction route *)




Section Route.
Context `{Runtime}.

(** C9.  Whatever the wrapped view and the request, the wrapper returns a
    response and never raises: an exception raised by the view becomes the
    response with status 500 whose body carries the message of the
    exception, and a response returned by the view is passed on. *)
Theorem api_error_handler_converts_exceptions
        (A : Type) (func : A -> outcome API.response) (args : A) :
  (forall e, func args = Raises e ->
             API.api_error_handler func args
             = Returns (API.mk_response (API.JsonError (exn_str e)) 500)) /\
  (forall r, func args = Returns r ->
             API.api_error_handler func args = Returns r) /\
  (exists r, API.api_error_handler func args = Returns r).
Proof.
  unfold API.api_error_handler, try_except.
  split; [|split].
  - intros e ->. reflexivity.
  - intros r ->. reflexivity.
  - destruct (func args) as [r|e]; eexists; reflexivity.
Qed.

(** C10.  When the dataset resolves to an empty table and the request has
    no client_id, the answer is the dataset-unavailable error (400), not
    the missing-parameter error: the emptiness check comes first. *)
Theorem empty_dataset_checked_before_client_id
        (fs : API.FileSystem) (args : API.Args) (df : DataFrame) :
  API.get_dataset fs (API.arg_path args) = Returns df ->
  df_empty df = true ->
  API.arg_client_id args = None ->
  API.predict_default fs args = Returns API.dataset_unavailable /\
  API.dataset_unavailable
  = API.mk_response (API.JsonError "Dataset introuvable ou vide") 400 /\
  API.resp_body API.dataset_unavailable
  <> API.resp_body API.client_id_required.
Proof.
  intros Hdf He _.
  unfold API.predict_default, API.api_error_handler, API.predict_default_view.
  rewrite Hdf. cbn [bind]. rewrite He.
  repeat split. discriminate.
Qed.


End Route.

(** ** Where the score is a probability, and where the fallback agrees *)

Lemma rnd_nonneg (q : Q) : 0 <= q -> 0 <= rnd q.
Proof.
  intros Hq. rewrite <- (rnd_zero 0) at 1 by reflexivity. apply rnd_le, Hq.
Qed.

Lemma rnd_canonical (q : Q) : Qred (rnd q) = rnd q.
Proof.
  unfold rnd. destruct (Qeq_bool q 0); [reflexivity|].
  apply Qred_complete, Qred_correct.
Qed.

Lemma rnd_is_one (q : Q) : rnd q == 1 -> rnd q = 1.
Proof.
  intros E. rewrite <- rnd_canonical. apply (Qred_complete _ 1), E.
Qed.

Lemma truediv_finite (c i : Q) :
  ~ i == 0 -> truediv (Fin c) (Fin i) = Returns (Fin (rnd (c / i))).
Proof.
  intros Hi. unfold truediv.
  destruct (Qeq_bool i 0) eqn:E; [|reflexivity].
  apply Qeq_bool_iff in E. contradiction.
Qed.

Lemma py_round_unit (x : Q) :
  0 <= x <= 1 -> exists r, py_round (Fin x) 3 = Fin r /\ 0 <= r <= 1.
Proof.
  intros [H0 H1]. eexists. split; [reflexivity|].
  pose proof (py_round_le 0 x 3 H0) as L.
  pose proof (py_round_le x 1 3 H1) as U.
  apply fle_Fin in L. apply fle_Fin in U.
  change (rnd (round_half_even (0 * inject_Z (Z.pos (pow10 3))) # pow10 3))
    with 0 in L.
  change (rnd (round_half_even (1 * inject_Z (Z.pos (pow10 3))) # pow10 3))
    with 1 in U.
  split; assumption.
Qed.

Section Score.
Context `{Runtime}.

(** X2.  The score is a probability whenever the credit amount is not
    negative. *)
Lemma score_in_unit_interval (row : Row) (c i : Q) :
  amount row "AMT_CREDIT" = Returns (Fin c) ->
  amount row "AMT_INCOME_TOTAL" = Returns (Fin i) ->
  0 <= c ->
  exists s, API.simple_risk_score row = Returns (Fin s) /\ 0 <= s <= 1.
Proof.
  intros Hc Hi Hpos. unfold API.simple_risk_score.
  rewrite Hc, Hi. cbn [bind].
  destruct (fle (Fin i) (Fin 0)) eqn:Hle.
  - exists (1 # 2). split; [reflexivity | lra].
  - assert (Hi0 : 0 < i).
    { apply Qnot_le_lt. intro Hc0. apply fle_Fin in Hc0. congruence. }
    rewrite truediv_finite by lra. cbn [bind].
    assert (Hq : 0 <= rnd (c / i)).
    { apply rnd_nonneg. apply Qle_shift_div_l; lra. }
    set (q := rnd (c / i)) in *.
    change (lit 5) with (Fin 5). change (lit 1) with (Fin 1).
    assert (Hp : exists p, truediv (py_min (Fin q) (Fin 5)) (Fin 5)
                           = Returns (Fin p) /\ 0 <= p).
    { unfold py_min. destruct (flt (Fin 5) (Fin q)).
      - exists 1. split; [reflexivity | lra].
      - rewrite truediv_finite by discriminate.
        eexists. split; [reflexivity|].
        apply rnd_nonneg. apply Qle_shift_div_l; lra. }
    destruct Hp as (p & -> & Hp). cbn [bind].
    unfold py_min.
    destruct (flt (Fin 1) (Fin p)) eqn:H1.
    + destruct (py_round_unit 1) as (r & Er & Hr); [lra|].
      exists r. rewrite Er. split; [reflexivity | exact Hr].
    + apply Qlt_bool_false_iff in H1.
      destruct (py_round_unit p) as (r & Er & Hr); [lra|].
      exists r. rewrite Er. split; [reflexivity | exact Hr].
Qed.

(** X5.  On a row with a positive income and a credit that is not negative,
    the local fallback reports the very score of the service. *)
Lemma fallback_agrees_on_scoreable_rows (row : Row) (c i : Q) :
  amount row "AMT_CREDIT" = Returns (Fin c) ->
  amount row "AMT_INCOME_TOTAL" = Returns (Fin i) ->
  0 <= c -> 0 < i ->
  exists s, API.simple_risk_score row = Returns s /\
            local_risk_score row = Returns s.
Proof.
  intros Hc Hi Hpos Hi0.
  unfold local_risk_score, Client.compute_local_risk, API.simple_risk_score.
  rewrite Hc, Hi. cbn [bind].
  assert (Hle : fle (Fin i) (Fin 0) = false).
  { destruct (fle (Fin i) (Fin 0)) eqn:E; [|reflexivity].
    apply fle_Fin in E. lra. }
  assert (Hgt : fgt (Fin i) (Fin 0) = true) by (apply flt_Fin, Hi0).
  rewrite Hle, Hgt. rewrite truediv_finite by lra. cbn [bind].
  assert (Hq : 0 <= rnd (c / i)).
  { apply rnd_nonneg. apply Qle_shift_div_l; lra. }
  set (q := rnd (c / i)) in *.
  change (lit 5) with (Fin 5). change (lit 1) with (Fin 1).
  rewrite (truediv_finite q 5) by discriminate.
  cbn [bind Client.risk_score].
  assert (Hp0 : 0 <= rnd (q / 5)).
  { apply rnd_nonneg. apply Qle_shift_div_l; lra. }
  assert (Hmax : py_max (Fin (rnd (q / 5))) (Fin 0) = Fin (rnd (q / 5))).
  { unfold py_max, fgt.
    destruct (flt (Fin (rnd (q / 5))) (Fin 0)) eqn:E; [|reflexivity].
    apply flt_Fin in E. lra. }
  rewrite Hmax.
  assert (Hapi : exists p,
             truediv (py_min (Fin q) (Fin 5)) (Fin 5) = Returns p /\
             py_min p (Fin 1) = py_min (Fin (rnd (q / 5))) (Fin 1)).
  { unfold py_min at 1.
    destruct (flt (Fin 5) (Fin q)) eqn:H5.
    - (* the service caps the ratio; the fallback saturates *)
      apply flt_Fin in H5.
      exists (Fin 1). split; [reflexivity|].
      assert (H1 : 1 <= rnd (q / 5)).
      { change 1 with (rnd 1) at 1. apply rnd_le.
        apply Qle_shift_div_l; lra. }
      unfold py_min.
      change (flt (Fin 1) (Fin 1)) with false. cbv iota.
      destruct (flt (Fin 1) (Fin (rnd (q / 5)))) eqn:E; [reflexivity|].
      apply Qlt_bool_false_iff in E.
      rewrite (rnd_is_one (q / 5)) by lra. reflexivity.
    - rewrite truediv_finite by discriminate.
      eexists. split; reflexivity. }
  destruct Hapi as (p & -> & Ep). cbn [bind]. rewrite Ep.
  eexists. split; reflexivity.
Qed.

End Score.

(** * The statements at sample inputs *)

Section Samples.
#[local] Existing Instance example_runtime.

(** C1.  On a client row whose income is zero the service scores 0.5 while
    the local fallback scores 0.1: the 0.5 of that branch is taken as the
    ratio and divided by 5. *)
Theorem fallback_differs_on_zero_income :
  API.simple_risk_score (client_row 10000 0) = Returns (Fin (1 # 2)) /\
  local_risk_score (client_row 10000 0) = Returns (lit (1 # 10)) /\
  feq (Fin (1 # 2)) (lit (1 # 10)) = false.
Proof. vm_compute. repeat split. Qed.

(** The two also part on a negative credit: the fallback clamps at zero,
    the service does not. *)
Lemma fallback_differs_on_negative_credit :
  API.simple_risk_score (client_row (-1000) 1000) = Returns (lit (-2 # 10)) /\
  local_risk_score (client_row (-1000) 1000) = Returns (Fin 0).
Proof. vm_compute. repeat split. Qed.

Lemma fallback_agrees_sample :
  API.simple_risk_score (client_row 10000 20000) = Returns (lit (1 # 10)) /\
  local_risk_score (client_row 10000 20000) = Returns (lit (1 # 10)).
Proof. vm_compute. repeat split. Qed.

(** C3.  On a client row with credit -1000 and income 1000 the service's
    score is -0.2, below zero. *)
Theorem score_negative_on_negative_credit :
  API.simple_risk_score (client_row (-1000) 1000) = Returns (lit (-2 # 10)) /\
  flt (lit (-2 # 10)) (Fin 0) = true.
Proof. vm_compute. repeat split. Qed.

(** C2 fails as stated: with credit 60000 and income 10000 the reported
    ratio is 6.0, not min(6.0, 5.0) = 5.0; with credit 10000 and income
    30000 it is 0.333, not the quotient. *)
Lemma reported_ratio_exceeds_cap :
  (truediv (Fin 60000) (Fin 10000) = Returns (Fin 6) /\
   reported_ratio (client_row 60000 10000) (Fin 1) two_clients
   = Returns (Some (Fin 6)) /\
   py_min (Fin 6) (lit 5) = Fin 5 /\
   feq (Fin 6) (Fin 5) = false) /\
  (exists q,
     truediv (Fin 10000) (Fin 30000) = Returns q /\
     reported_ratio (client_row 10000 30000) (Fin 0) two_clients
     = Returns (Some (lit (333 # 1000))) /\
     py_min q (lit 5) = q /\
     feq (lit (333 # 1000)) q = false).
Proof.
  split.
  - vm_compute. repeat split.
  - eexists. vm_compute. repeat split.
Qed.

Lemma reported_ratio_witness :
  fgt (Fin 60000) (Fin 0) = true /\
  exists q,
    truediv (Fin 60000) (Fin 10000) = Returns q /\
    reported_ratio (client_row 60000 10000) (Fin 1) two_clients
    = Returns (Some (py_round q 3)).
Proof.
  split; [reflexivity|].
  apply (@reported_ratio_is_rounded_quotient example_runtime
           (client_row 60000 10000) (Fin 1) two_clients
           (Fin 60000) (Fin 10000)); reflexivity.
Defined.

Lemma nonpositive_income_witness :
  fle (Fin 0) (Fin 0) = true /\
  API.simple_risk_score (client_row 10000 0) = Returns (Fin (1 # 2)) /\
  forall score df, reported_ratio (client_row 10000 0) score df = Returns None.
Proof.
  split; [reflexivity|].
  apply (@nonpositive_income_gives_neutral_score example_runtime
           (client_row 10000 0) (Fin 10000) (Fin 0)); reflexivity.
Defined.

Lemma decision_and_tier_witness :
  exists p,
    API.format_prediction (client_row 10000 20000) (lit (1 # 10)) two_clients
    = Returns p /\
    (API.prediction p = "defaut" <-> fge (lit (1 # 10)) (lit (1 # 2)) = true) /\
    (API.prediction p = "remboursement_normal"
     <-> flt (lit (1 # 10)) (lit (1 # 2)) = true) /\
    (API.risk_level p = "eleve"
     <-> fge (lit (1 # 10)) (lit (7 # 10)) = true) /\
    (API.risk_level p = "modere"
     <-> fge (lit (1 # 10)) (lit (4 # 10)) = true
         /\ flt (lit (1 # 10)) (lit (7 # 10)) = true) /\
    (API.risk_level p = "faible" <-> flt (lit (1 # 10)) (lit (4 # 10)) = true).
Proof.
  apply (@decision_and_tier_thresholds example_runtime
           (client_row 10000 20000) (lit (1 # 10)) two_clients
           (Fin 10000) (Fin 20000)); reflexivity.
Defined.


(** The same through the route: the first client of [mixed_credit] is
    scored, and its credit percentile is null although the credit column is
    there and has two entries. *)
Lemma mixed_column_yields_null_percentile :
  exists p,
    API.predict_default sample_files [("client_id", "1"); ("path", "mixed.csv")]
    = Returns (API.mk_response (API.JsonPrediction p) 200) /\
    API.credit_percentile p = None /\
    API.income_percentile p = Some (Fin 50) /\
    df_get mixed_credit "AMT_CREDIT" = Some [Text "10000"; Text "abc"].
Proof. eexists. vm_compute. repeat split. Qed.


Lemma percentile_monotone_witness :
  fle (Fin 10000) (Fin 50000) = true /\
  exists p1 p2,
    API.compute_percentile (Some [num 10000; num 50000]) (Fin 10000)
    = Returns p1 /\
    API.compute_percentile (Some [num 10000; num 50000]) (Fin 50000)
    = Returns p2 /\
    percentile_le p1 p2 /\
    (numeric [num 10000; num 50000] = true -> p1 <> None /\ p2 <> None).
Proof.
  split; [reflexivity|].
  apply (percentile_monotone
           [num 10000; num 50000] (Fin 10000) (Fin 50000));
    [discriminate | reflexivity].
Defined.

Lemma api_error_handler_witness :
  API.api_error_handler
    (fun _ : unit => Raises (key_error "SK_ID_CURR")) tt
  = Returns (API.mk_response (API.JsonError "'SK_ID_CURR'") 500).
Proof.
  apply (proj1 (api_error_handler_converts_exceptions unit
                  (fun _ : unit => Raises (key_error "SK_ID_CURR")) tt)
           (key_error "SK_ID_CURR")). reflexivity.
Defined.

Lemma empty_dataset_first_witness :
  API.arg_client_id [("path", "header.csv")] = None /\
  df_empty header_only = true /\
  API.predict_default sample_files [("path", "header.csv")]
  = Returns API.dataset_unavailable.
Proof.
  split; [reflexivity|]. split; [reflexivity|].
  apply (@empty_dataset_checked_before_client_id example_runtime
           sample_files [("path", "header.csv")] header_only);
    reflexivity.
Defined.



(** The scenario of the specification: two clients, queried in turn. *)
Lemma scenario_first_client :
  exists p,
    API.predict_default sample_files [("client_id", "1"); ("path", "clients.csv")]
    = Returns (API.mk_response (API.JsonPrediction p) 200) /\
    API.ratio_credit_income p = Some (Fin (1 # 2)) /\
    API.probability_default p = lit (1 # 10) /\
    API.risk_level p = "faible" /\
    API.prediction p = "remboursement_normal".
Proof. eexists. vm_compute. repeat split. Qed.

Lemma scenario_second_client :
  exists p,
    API.predict_default sample_files [("client_id", "2"); ("path", "clients.csv")]
    = Returns (API.mk_response (API.JsonPrediction p) 200) /\
    API.ratio_credit_income p = Some (Fin 5) /\
    API.probability_default p = Fin 1 /\
    API.risk_level p = "eleve" /\
    API.prediction p = "defaut" /\
    API.credit_percentile p = Some (Fin 50).
Proof. eexists. vm_compute. repeat split. Qed.

End Samples.

(** * Further properties of the service's score *)

Lemma rnd_is_value (q v : Q) : Qred v = v -> rnd q == v -> rnd q = v.
Proof.
  intros Hv E. rewrite <- rnd_canonical, <- Hv. apply Qred_complete, E.
Qed.

Lemma fle_false_lt (x y : Q) : fle (Fin x) (Fin y) = false -> y < x.
Proof.
  intros E. apply Qnot_le_lt. intro Hc. apply fle_Fin in Hc. congruence.
Qed.

(** The value of [min(a, k)] on finite floats. *)
Lemma py_min_Fin (a k : Q) :
  exists m, py_min (Fin a) (Fin k) = Fin m /\ m <= k /\ m <= a
            /\ (m == a \/ m == k).
Proof.
  unfold py_min. destruct (flt (Fin k) (Fin a)) eqn:E.
  - apply flt_Fin in E. exists k. repeat split; lra.
  - apply Qlt_bool_false_iff in E. exists a. repeat split; lra.
Qed.

Lemma py_min_Fin_le (a b k : Q) :
  a <= b ->
  exists m n, py_min (Fin a) (Fin k) = Fin m /\ py_min (Fin b) (Fin k) = Fin n
              /\ m <= n.
Proof.
  intros Hab.
  destruct (py_min_Fin a k) as (m & Em & Hmk & Hma & Hm).
  destruct (py_min_Fin b k) as (n & En & Hnk & Hnb & Hn).
  exists m, n. repeat split; try assumption.
  destruct Hn as [Hn|Hn]; lra.
Qed.

Lemma py_round_Fin_le (x y : Q) (n : nat) :
  x <= y ->
  exists r s, py_round (Fin x) n = Fin r /\ py_round (Fin y) n = Fin s
              /\ r <= s.
Proof.
  intros Hxy. eexists. eexists. split; [reflexivity|]. split; [reflexivity|].
  apply fle_Fin. apply (py_round_le x y n Hxy).
Qed.

Section ScoreShape.
Context `{Runtime}.

(** The score of a row with a positive income, step by step. *)
Lemma simple_risk_score_positive (row : Row) (c i : Q) :
  amount row "AMT_CREDIT" = Returns (Fin c) ->
  amount row "AMT_INCOME_TOTAL" = Returns (Fin i) ->
  0 < i ->
  API.simple_risk_score row
  = Returns (py_round
               (py_min (Fin (rnd (match py_min (Fin (rnd (c / i))) (Fin 5) with
                                  | Fin m => m
                                  | NaN => 0
                                  end / 5)))
                       (Fin 1)) 3).
Proof.
  intros Hc Hi Hi0. unfold API.simple_risk_score.
  rewrite Hc, Hi. cbn [bind].
  assert (Hle : fle (Fin i) (Fin 0) = false).
  { destruct (fle (Fin i) (Fin 0)) eqn:E; [|reflexivity].
    apply fle_Fin in E. lra. }
  rewrite Hle. rewrite truediv_finite by lra. cbn [bind].
  change (lit 5) with (Fin 5). change (lit 1) with (Fin 1).
  destruct (py_min_Fin (rnd (c / i)) 5) as (m & -> & _).
  rewrite truediv_finite by discriminate. reflexivity.
Qed.

(** X1.  Whatever the finite amounts of a row, credit negative or not, the
    service's score is a number that does not exceed 1. *)
Theorem score_never_above_one (row : Row) (c i : Q) :
  amount row "AMT_CREDIT" = Returns (Fin c) ->
  amount row "AMT_INCOME_TOTAL" = Returns (Fin i) ->
  exists s, API.simple_risk_score row = Returns (Fin s) /\ s <= 1.
Proof.
  intros Hc Hi.
  destruct (Qlt_le_dec 0 i) as [Hi0|Hi0].
  - rewrite (simple_risk_score_positive row c i Hc Hi Hi0).
    destruct (py_min_Fin (rnd (c / i)) 5) as (m & -> & _).
    destruct (py_min_Fin (rnd (m / 5)) 1) as (n & -> & Hn1 & _).
    destruct (py_round_Fin_le n 1 3 Hn1) as (r & s & -> & Es & Hrs).
    exists r. split; [reflexivity|].
    change (py_round (Fin 1) 3) with (Fin 1) in Es.
    injection Es as <-. exact Hrs.
  - unfold API.simple_risk_score. rewrite Hc, Hi. cbn [bind].
    assert (Hle : fle (Fin i) (Fin 0) = true) by (apply fle_Fin, Hi0).
    rewrite Hle. exists (1 # 2). split; [reflexivity | lra].
Qed.

(** X3.  The score saturates: with a positive income and a credit of at
    least five times the income, it is exactly 1.0. *)
Theorem score_saturates_at_five (row : Row) (c i : Q) :
  amount row "AMT_CREDIT" = Returns (Fin c) ->
  amount row "AMT_INCOME_TOTAL" = Returns (Fin i) ->
  0 < i ->
  5 * i <= c ->
  API.simple_risk_score row = Returns (Fin 1).
Proof.
  intros Hc Hi Hi0 Hbig.
  rewrite (simple_risk_score_positive row c i Hc Hi Hi0).
  assert (Hq : 5 <= rnd (c / i)).
  { change 5 with (rnd 5) at 1. apply rnd_le.
    apply Qle_shift_div_l; lra. }
  assert (Hmin : py_min (Fin (rnd (c / i))) (Fin 5) = Fin 5).
  { unfold py_min. destruct (flt (Fin 5) (Fin (rnd (c / i)))) eqn:E.
    - reflexivity.
    - apply Qlt_bool_false_iff in E.
      rewrite (rnd_is_value (c / i) 5) by (reflexivity || lra). reflexivity. }
  rewrite Hmin. reflexivity.
Qed.

(** X4.  For a fixed positive income the score does not decrease when the
    credit grows. *)
Theorem score_monotone_in_credit (row1 row2 : Row) (c1 c2 i : Q) :
  amount row1 "AMT_CREDIT" = Returns (Fin c1) ->
  amount row1 "AMT_INCOME_TOTAL" = Returns (Fin i) ->
  amount row2 "AMT_CREDIT" = Returns (Fin c2) ->
  amount row2 "AMT_INCOME_TOTAL" = Returns (Fin i) ->
  0 < i ->
  c1 <= c2 ->
  exists s1 s2,
    API.simple_risk_score row1 = Returns (Fin s1) /\
    API.simple_risk_score row2 = Returns (Fin s2) /\
    s1 <= s2.
Proof.
  intros Hc1 Hi1 Hc2 Hi2 Hi0 Hc.
  rewrite (simple_risk_score_positive row1 c1 i Hc1 Hi1 Hi0).
  rewrite (simple_risk_score_positive row2 c2 i Hc2 Hi2 Hi0).
  assert (Hq : rnd (c1 / i) <= rnd (c2 / i)).
  { apply rnd_le. apply Qmult_le_compat_r; [exact Hc|].
    apply Qlt_le_weak, Qinv_lt_0_compat, Hi0. }
  destruct (py_min_Fin_le _ _ 5 Hq) as (m1 & m2 & -> & -> & Hm).
  assert (Hp : rnd (m1 / 5) <= rnd (m2 / 5)).
  { apply rnd_le. apply Qmult_le_compat_r; [exact Hm | discriminate]. }
  destruct (py_min_Fin_le _ _ 1 Hp) as (n1 & n2 & -> & -> & Hn).
  destruct (py_round_Fin_le n1 n2 3 Hn) as (r & s & -> & -> & Hrs).
  exists r, s. repeat split. exact Hrs.
Qed.

(** X16.  A missing income ([NaN]) does not take the neutral branch: the
    score is [NaN], which compares below every threshold, so the prediction
    reads "remboursement_normal" and "faible", with no ratio. *)
Theorem missing_income_gives_nan_score
        (row : Row) (credit : pyfloat) (df : DataFrame) :
  amount row "AMT_CREDIT" = Returns credit ->
  amount row "AMT_INCOME_TOTAL" = Returns NaN ->
  API.simple_risk_score row = Returns NaN /\
  exists p,
    API.format_prediction row NaN df = Returns p /\
    API.probability_default p = NaN /\
    API.prediction p = "remboursement_normal" /\
    API.risk_level p = "faible" /\
    API.ratio_credit_income p = None.
Proof.
  intros Hc Hi. split.
  - unfold API.simple_risk_score. rewrite Hc, Hi. reflexivity.
  - destruct (format_prediction_returns row NaN df credit NaN Hc Hi)
      as (p & Ep & Es & Ed & Et & Hnone & _).
    exists p. repeat split; try assumption. apply Hnone. reflexivity.
Qed.

(** X17.  A row that has no income column is scored like an unknown
    income: 0.5, with no ratio. *)
Theorem absent_income_gives_neutral_score (row : Row) (credit : pyfloat) :
  amount row "AMT_CREDIT" = Returns credit ->
  assoc "AMT_INCOME_TOTAL" row = None ->
  API.simple_risk_score row = Returns (Fin (1 # 2)) /\
  forall score df, reported_ratio row score df = Returns None.
Proof.
  intros Hc Hi.
  assert (Hi0 : amount row "AMT_INCOME_TOTAL" = Returns (Fin 0)).
  { unfold amount, row_get. rewrite Hi. reflexivity. }
  split.
  - unfold API.simple_risk_score. rewrite Hc, Hi0. reflexivity.
  - intros score df. unfold reported_ratio.
    destruct (format_prediction_returns row score df credit (Fin 0) Hc Hi0)
      as (p & Ep & _ & _ & _ & Hnone & _).
    rewrite Ep. cbn [bind]. f_equal. apply Hnone. reflexivity.
Qed.

Lemma format_prediction_amounts
      (row : Row) (score : pyfloat) (df : DataFrame) (p : API.Prediction) :
  API.format_prediction row score df = Returns p ->
  exists credit income,
    amount row "AMT_CREDIT" = Returns credit /\
    amount row "AMT_INCOME_TOTAL" = Returns income.
Proof.
  unfold API.format_prediction.
  destruct (amount row "AMT_CREDIT") as [credit|e]; [|discriminate].
  destruct (amount row "AMT_INCOME_TOTAL") as [income|e]; [|discriminate].
  intros _. exists credit, income. split; reflexivity.
Qed.

(** X15.  The client names the tier of a score with the thresholds of the
    service: for every score, the label it computes is the capitalised
    label of the service's prediction. *)
Theorem client_tier_matches_service_tier
        (row : Row) (score : pyfloat) (df : DataFrame) (p : API.Prediction) :
  API.format_prediction row score df = Returns p ->
  (API.risk_level p = "eleve" <-> Client.risk_level score = "Eleve") /\
  (API.risk_level p = "modere" <-> Client.risk_level score = "Modere") /\
  (API.risk_level p = "faible" <-> Client.risk_level score = "Faible").
Proof.
  intros Ep.
  destruct (format_prediction_amounts row score df p Ep)
    as (credit & income & Hc & Hi).
  destruct (format_prediction_returns row score df credit income Hc Hi)
    as (p' & Ep' & _ & _ & Et & _).
  rewrite Ep in Ep'. injection Ep' as <-.
  rewrite Et. unfold Client.risk_level.
  destruct (fge score (lit (7 # 10))); destruct (fge score (lit (4 # 10)));
    repeat match goal with
           | |- _ /\ _ => split
           | |- _ <-> _ => split
           end;
    intros E; try discriminate E; reflexivity.
Qed.

End ScoreShape.

(** * Further properties of the fallback and of the percentile *)

Lemma py_max_Fin (a k : Q) :
  exists m, py_max (Fin a) (Fin k) = Fin m /\ k <= m /\ a <= m.
Proof.
  unfold py_max, fgt. destruct (flt (Fin a) (Fin k)) eqn:E.
  - apply flt_Fin in E. exists k. repeat split; lra.
  - apply Qlt_bool_false_iff in E. exists a. repeat split; lra.
Qed.

Lemma rnd_le_value (q v : Q) : rnd v = v -> q <= v -> rnd q <= v.
Proof. intros E Hq. rewrite <- E. apply rnd_le, Hq. Qed.

Lemma filter_length_bound {A : Type} (f : A -> bool) (l : list A) :
  (List.length (filter f l) <= List.length l)%nat.
Proof.
  induction l as [|a l IH]; simpl; [lia|].
  destruct (f a); simpl; lia.
Qed.



Lemma length_pos_Q {A : Type} (l : list A) :
  l <> [] -> 0 < inject_Z (Z.of_nat (List.length l)).
Proof.
  intros Hl. change 0 with (inject_Z 0). rewrite <- Zlt_Qlt.
  destruct l; [contradiction | simpl; lia].
Qed.

Lemma fraction_below_unit (s : Column) (v : pyfloat) :
  s <> [] -> exists a, fraction_below s v = Fin a /\ 0 <= a <= 1.
Proof.
  intros Hs. unfold fraction_below. eexists. split; [reflexivity|].
  pose proof (length_pos_Q s Hs) as Hn.
  pose proof (filter_length_bound (strictly_below v) s) as Hk.
  set (k := List.length (filter (strictly_below v) s)) in *.
  assert (Hk0 : 0 <= inject_Z (Z.of_nat k)).
  { change 0 with (inject_Z 0). rewrite <- Zle_Qle. lia. }
  assert (Hkn : inject_Z (Z.of_nat k) <= inject_Z (Z.of_nat (List.length s))).
  { rewrite <- Zle_Qle. lia. }
  split.
  - apply rnd_nonneg. apply Qle_shift_div_l; lra.
  - apply rnd_le_value; [reflexivity|].
    apply Qle_shift_div_r; lra.
Qed.

Section FallbackAndPercentile.
Context `{Runtime}.

(** X6.  Whatever the finite amounts of a row (credit negative, income
    zero or negative included), the score of the local fallback is a number
    of [0,1]. *)
Theorem local_score_in_unit_interval (row : Row) (c i : Q) :
  amount row "AMT_CREDIT" = Returns (Fin c) ->
  amount row "AMT_INCOME_TOTAL" = Returns (Fin i) ->
  exists s, local_risk_score row = Returns (Fin s) /\ 0 <= s <= 1.
Proof.
  intros Hc Hi.
  unfold local_risk_score, Client.compute_local_risk.
  rewrite Hc, Hi. cbn [bind].
  assert (Hratio : exists r,
             (if fgt (Fin i) (Fin 0) then truediv (Fin c) (Fin i)
              else Returns (lit (1 # 2))) = Returns (Fin r)).
  { destruct (fgt (Fin i) (Fin 0)) eqn:E.
    - apply flt_Fin in E. rewrite truediv_finite by lra.
      eexists. reflexivity.
    - eexists. reflexivity. }
  destruct Hratio as (r & ->). cbn [bind].
  change (lit 5) with (Fin 5).
  rewrite truediv_finite by discriminate. cbn [bind Client.risk_score].
  destruct (py_max_Fin (rnd (r / 5)) 0) as (m & -> & Hm0 & _).
  destruct (py_min_Fin m 1) as (n & -> & Hn1 & _ & Hn).
  destruct (py_round_unit n) as (s & Es & Hs).
  { destruct Hn as [Hn|Hn]; lra. }
  exists s. rewrite Es. split; [reflexivity | exact Hs].
Qed.

(** X7.  The percentile of any value in a non-empty column of numbers is a
    number between 0 and 100. *)
Theorem percentile_between_0_and_100 (s : Column) (v : pyfloat) :
  s <> [] ->
  numeric s = true ->
  exists p, API.compute_percentile (Some s) v = Returns (Some (Fin p))
            /\ 0 <= p <= 100.
Proof.
  intros Hs Hn. rewrite (compute_percentile_numeric s v Hs Hn).
  unfold spec_percentile.
  destruct (fraction_below_unit s v Hs) as (a & -> & Ha0 & Ha1).
  cbn [fmul]. eexists. split; [reflexivity|].
  assert (H0 : 0 <= rnd (a * 100)) by (apply rnd_nonneg; lra).
  assert (H100 : rnd (a * 100) <= 100).
  { apply rnd_le_value; [reflexivity | lra]. }
  pose proof (py_round_le 0 (rnd (a * 100)) 1 H0) as L.
  pose proof (py_round_le (rnd (a * 100)) 100 1 H100) as U.
  apply fle_Fin in L. apply fle_Fin in U.
  change (rnd (round_half_even (0 * inject_Z (Z.pos (pow10 1))) # pow10 1))
    with 0 in L.
  change (rnd (round_half_even (100 * inject_Z (Z.pos (pow10 1))) # pow10 1))
    with 100 in U.
  split; assumption.
Qed.


End FallbackAndPercentile.

(** * Further properties of the prediction route *)

(** ** The first row that a mask selects *)

Lemma first_true_bound (mask : list bool) (k : nat) :
  first_true mask = Some k ->
  (k < List.length mask)%nat /\ nth k mask false = true.
Proof.
  revert k. induction mask as [|b mask IH]; intros k; simpl; [discriminate|].
  destruct b.
  - intros E. injection E as <-. split; [lia | reflexivity].
  - destruct (first_true mask) as [j|]; [|discriminate].
    intros E. injection E as <-.
    destruct (IH j eq_refl) as [Hj Hn]. split; [lia | exact Hn].
Qed.

Lemma first_true_none (mask : list bool) :
  first_true mask = None -> forall b, In b mask -> b = false.
Proof.
  induction mask as [|b mask IH]; simpl; [intros _ b []|].
  destruct b; [discriminate|].
  destruct (first_true mask) as [j|]; [discriminate|].
  intros _ b [<- | Hb]; [reflexivity | apply IH; [reflexivity | exact Hb]].
Qed.

Lemma select_first {A : Type} (mask : list bool) (l : list A) (k : nat) (d : A) :
  List.length l = List.length mask ->
  first_true mask = Some k ->
  exists rest, select mask l = nth k l d :: rest.
Proof.
  revert l k. induction mask as [|b mask IH]; intros l k Hl; [discriminate|].
  destruct l as [|x l]; [discriminate|].
  simpl in Hl. simpl. destruct b.
  - intros E. injection E as <-. eexists. reflexivity.
  - destruct (first_true mask) as [j|]; [|discriminate].
    intros E. injection E as <-.
    apply IH; [lia | reflexivity].
Qed.

Lemma first_cells_filter (df : DataFrame) (mask : list bool) (k : nat) :
  aligned df (List.length mask) ->
  first_true mask = Some k ->
  first_cells (df_filter df mask) = Returns (row_at df k).
Proof.
  intros Ha Hk. induction df as [|[name c] df IH]; [reflexivity|].
  inversion Ha as [|? ? Hc Hrest]; subst. simpl in Hc.
  simpl. destruct (select_first mask c k (Num NaN) Hc Hk) as (rest & ->).
  rewrite (IH Hrest). reflexivity.
Qed.

Lemma df_filter_some (df : DataFrame) (mask : list bool) (k : nat) :
  df <> [] ->
  aligned df (List.length mask) ->
  first_true mask = Some k ->
  df_empty (df_filter df mask) = false.
Proof.
  intros Hdf Ha Hk. destruct df as [|[name c] df]; [contradiction|].
  inversion Ha as [|? ? Hc Hrest]; subst. simpl in Hc.
  simpl. destruct (select_first mask c k (Num NaN) Hc Hk) as (rest & ->).
  reflexivity.
Qed.

Lemma assoc_row_at (df : DataFrame) (key : string) (col : Column) (k : nat) :
  assoc key df = Some col ->
  assoc key (row_at df k) = Some (nth k col (Num NaN)).
Proof.
  induction df as [|[name c] df IH]; simpl; [discriminate|].
  destruct (String.eqb key name); [|exact IH].
  intros E. injection E as <-. reflexivity.
Qed.

Lemma as_client_id_of_match `{Runtime} (c : cell) (id : Z) :
  cell_eq_int c id = true -> API.as_client_id c = inl id.
Proof.
  destruct c as [[q|]|t]; simpl; try discriminate.
  intros E. apply Qeq_bool_iff in E. unfold Qeq in E. simpl in E.
  f_equal. rewrite Z.mul_1_r in E. rewrite E.
  apply Z.quot_mul. discriminate.
Qed.

(** ** The row as a series of one type *)

Lemma assoc_interleave (common : dtype) (types : list dtype) (r : Row)
      (key : string) :
  assoc key (interleave common types r) = assoc key r \/
  assoc key (interleave common types r)
  = option_map astype_float64 (assoc key r).
Proof.
  revert r. induction types as [|t types IH]; intros r;
    [left; destruct r; reflexivity|].
  destruct r as [|[name c] r]; [left; reflexivity|].
  cbn [interleave assoc].
  destruct (String.eqb key name); [|apply IH].
  destruct (dtype_eqb common float64 && negb (dtype_eqb t float64));
    [right | left]; reflexivity.
Qed.

Lemma interleave_same (common : dtype) (types : list dtype) (r : Row) :
  dtype_eqb common float64 = false -> interleave common types r = r.
Proof.
  intros Hc. revert r. induction types as [|t types IH]; intros r;
    [destruct r; reflexivity|].
  destruct r as [|[name c] r]; [reflexivity|].
  cbn [interleave]. rewrite Hc, IH. reflexivity.
Qed.

(** The entry under a key of the series is the entry of the table, or its
    conversion to float64. *)
Lemma row_get_interleave (common : dtype) (types : list dtype) (r : Row)
      (key : string) (default : cell) :
  row_get (interleave common types r) key default = row_get r key default \/
  row_get (interleave common types r) key default
  = astype_float64 (row_get r key default).
Proof.
  unfold row_get.
  destruct (assoc_interleave common types r key) as [-> | ->];
    [left; reflexivity|].
  destruct (assoc key r) as [c|]; [right | left]; reflexivity.
Qed.

(** A conversion to float64 keeps a fault of [float] and [or] as it is, and
    keeps a number a number. *)
Lemma amount_interleave `{Runtime} (common : dtype) (types : list dtype)
      (r : Row) (key : string) :
  (forall e, amount r key = Raises e ->
             amount (interleave common types r) key = Raises e) /\
  (forall x, amount r key = Returns x ->
             exists x', amount (interleave common types r) key = Returns x').
Proof.
  unfold amount.
  destruct (row_get_interleave common types r key (Num (Fin 0))) as [-> | ->].
  { split; [intros e E; exact E | intros x E; exists x; exact E]. }
  destruct (row_get r key (Num (Fin 0))) as [[q|]|s].
  - split.
    + intros e. unfold py_or.
      destruct (cell_truthy (Num (Fin q))); discriminate.
    + intros x _. cbn [astype_float64]. unfold py_or.
      destruct (cell_truthy (Num (Fin (rnd q)))); eexists; reflexivity.
  - split; [intros e E; exact E | intros x E; exists x; exact E].
  - split; [intros e E; exact E | intros x E; exists x; exact E].
Qed.

(** What makes the score raise is an amount that [float] cannot read. *)
Lemma simple_risk_score_raises `{Runtime} (row : Row) (e : exn) :
  API.simple_risk_score row = Raises e ->
  amount row "AMT_CREDIT" = Raises e \/
  (exists credit, amount row "AMT_CREDIT" = Returns credit) /\
  amount row "AMT_INCOME_TOTAL" = Raises e.
Proof.
  unfold API.simple_risk_score.
  destruct (amount row "AMT_CREDIT") as [credit|e1].
  2:{ cbn [bind]. intros E. injection E as <-. left. reflexivity. }
  destruct (amount row "AMT_INCOME_TOTAL") as [income|e2].
  2:{ cbn [bind]. intros E. injection E as <-. right.
      split; [eexists|]; reflexivity. }
  cbn [bind]. intros E. exfalso.
  destruct (fle income (Fin 0)) eqn:Hle; [discriminate E|].
  assert (Hq : exists q, truediv credit income = Returns q).
  { destruct income as [i|]; [|destruct credit; eexists; reflexivity].
    unfold truediv.
    destruct (Qeq_bool i 0) eqn:E0.
    - apply Qeq_bool_iff in E0.
      assert (Hle' : fle (Fin i) (Fin 0) = true)
        by (apply fle_Fin; rewrite E0; apply Qle_refl).
      rewrite Hle' in Hle. discriminate Hle.
    - destruct credit; eexists; reflexivity. }
  destruct Hq as (q & Eq). rewrite Eq in E. cbn [bind] in E.
  assert (Hp : exists p, truediv (py_min q (lit 5)) (lit 5) = Returns p).
  { unfold truediv, lit.
    assert (E5 : Qeq_bool (rnd 5) 0 = false) by (vm_compute; reflexivity).
    rewrite E5. destruct (py_min q (Fin (rnd 5))); eexists; reflexivity. }
  destruct Hp as (p & Ep). rewrite Ep in E. discriminate E.
Qed.

Lemma simple_risk_score_interleave `{Runtime} (common : dtype)
      (types : list dtype) (row : Row) (e : exn) :
  API.simple_risk_score row = Raises e ->
  API.simple_risk_score (interleave common types row) = Raises e.
Proof.
  intros Hs. unfold API.simple_risk_score.
  destruct (simple_risk_score_raises row e Hs) as [Hc | [(credit & Hc) Hi]].
  - rewrite (proj1 (amount_interleave common types row "AMT_CREDIT") e Hc).
    reflexivity.
  - destruct (proj2 (amount_interleave common types row "AMT_CREDIT")
                credit Hc) as (credit' & ->).
    rewrite (proj1 (amount_interleave common types row "AMT_INCOME_TOTAL")
               e Hi).
    reflexivity.
Qed.

Lemma cell_eq_int_astype (c : cell) (id : Z) :
  binary64_int id ->
  cell_eq_int c id = true -> cell_eq_int (astype_float64 c) id = true.
Proof.
  intros Hid. destruct c as [[q|]|s]; cbn [cell_eq_int astype_float64 feq];
    try discriminate.
  intros E. apply Qeq_bool_iff in E. apply Qeq_bool_iff.
  rewrite (rnd_comp q (inject_Z id) E). exact Hid.
Qed.

Lemma iloc0_filter `{Runtime} (df : DataFrame) (mask : list bool) (k : nat) :
  df <> [] ->
  aligned df (List.length mask) ->
  first_true mask = Some k ->
  iloc0 (dtypes df) (df_filter df mask) = Returns (iloc_at df k).
Proof.
  intros Hne Ha Hk. unfold iloc0.
  rewrite (df_filter_some df mask k Hne Ha Hk).
  rewrite (first_cells_filter df mask k Ha Hk). reflexivity.
Qed.

(** The identifier of the row that [iloc] gives is the requested one, when
    binary64 holds it. *)
Lemma iloc_at_identifier `{Runtime} (df : DataFrame) (ids : Column) (id : Z)
      (k : nat) (default : cell) :
  df_get df "SK_ID_CURR" = Some ids ->
  first_true (series_eq_int ids id) = Some k ->
  binary64_int id ->
  cell_eq_int (row_get (iloc_at df k) "SK_ID_CURR" default) id = true.
Proof.
  intros Hcol Hk Hid.
  assert (Hcell : cell_eq_int (nth k ids (Num NaN)) id = true).
  { destruct (first_true_bound _ _ Hk) as [_ Hn].
    unfold series_eq_int in Hn.
    pose proof (map_nth (fun c => cell_eq_int c id) ids (Num NaN) k) as Hm.
    cbv beta in Hm. change (cell_eq_int (Num NaN) id) with false in Hm.
    rewrite <- Hm. exact Hn. }
  unfold df_get in Hcol.
  pose proof (assoc_row_at df _ ids k Hcol) as Hrow.
  unfold iloc_at.
  destruct (row_get_interleave (common_dtype (dtypes df)) (dtypes df)
              (row_at df k) "SK_ID_CURR" default) as [-> | ->];
    unfold row_get; rewrite Hrow;
    [exact Hcell | apply cell_eq_int_astype; assumption].
Qed.

Section RouteMore.
Context `{Runtime}.

(** Where the view stands once the table is read, not empty, and the
    client_id is given. *)
Lemma view_after_checks (fs : API.FileSystem) (args : API.Args)
      (df : DataFrame) (id : Z) (ids : Column) (k : nat) :
  API.get_dataset fs (API.arg_path args) = Returns df ->
  API.arg_client_id args = Some id ->
  df_get df "SK_ID_CURR" = Some ids ->
  aligned df (List.length ids) ->
  first_true (series_eq_int ids id) = Some k ->
  API.predict_default_view fs args
  = (score <- API.simple_risk_score (iloc_at df k) ;;
     result <- API.format_prediction (iloc_at df k) score df ;;
     Returns (API.mk_response (API.JsonPrediction result) 200)).
Proof.
  intros Hdf Hid Hcol Ha Hk.
  assert (Hlen : List.length (series_eq_int ids id) = List.length ids).
  { unfold series_eq_int. apply length_map. }
  assert (Hne : df <> []).
  { intro E. rewrite E in Hcol. discriminate Hcol. }
  assert (Hfull : df_empty df = false).
  { destruct df as [|[name c] df]; [contradiction|].
    inversion Ha as [|? ? Hc _]; subst. simpl in Hc.
    destruct (first_true_bound _ _ Hk) as [Hlt _]. rewrite Hlen in Hlt.
    simpl. destruct c; [simpl in Hc; lia | reflexivity]. }
  unfold API.predict_default_view.
  rewrite Hdf. cbn [bind]. rewrite Hfull, Hid.
  unfold df_getitem. unfold df_get in Hcol. rewrite Hcol. cbn [bind].
  rewrite <- Hlen in Ha.
  rewrite (df_filter_some df _ k Hne Ha Hk).
  rewrite (iloc0_filter df _ k Hne Ha Hk). reflexivity.
Qed.

(** X11.  When the identifier column of a well-formed table holds the
    requested client_id, and the client_id is a number that binary64 holds
    exactly (every integer up to 2^53 in magnitude is one), the answer has
    status 200 and is the prediction made of the first row that holds it,
    as [iloc] gives that row: its client_id is the requested one and its
    probability is the score of that row. *)
Theorem known_client_is_scored (fs : API.FileSystem) (args : API.Args)
        (df : DataFrame) (id : Z) (ids : Column) (k : nat) (score : pyfloat) :
  API.get_dataset fs (API.arg_path args) = Returns df ->
  API.arg_client_id args = Some id ->
  df_get df "SK_ID_CURR" = Some ids ->
  aligned df (List.length ids) ->
  first_true (series_eq_int ids id) = Some k ->
  binary64_int id ->
  API.simple_risk_score (iloc_at df k) = Returns score ->
  exists p,
    API.predict_default fs args
    = Returns (API.mk_response (API.JsonPrediction p) 200) /\
    API.format_prediction (iloc_at df k) score df = Returns p /\
    API.client_id p = inl id /\
    API.probability_default p = score.
Proof.
  intros Hdf Hid Hcol Ha Hk Hbin Hs.
  assert (Hamounts : exists credit income,
             amount (iloc_at df k) "AMT_CREDIT" = Returns credit /\
             amount (iloc_at df k) "AMT_INCOME_TOTAL" = Returns income).
  { unfold API.simple_risk_score in Hs.
    destruct (amount (iloc_at df k) "AMT_CREDIT") as [credit|e];
      [|discriminate].
    destruct (amount (iloc_at df k) "AMT_INCOME_TOTAL") as [income|e];
      [|discriminate].
    exists credit, income. split; reflexivity. }
  destruct Hamounts as (credit & income & Hc & Hi).
  destruct (format_prediction_returns (iloc_at df k) score df credit income
              Hc Hi) as (p & Ep & Eprob & _).
  exists p.
  unfold API.predict_default, API.api_error_handler.
  rewrite (view_after_checks fs args df id ids k Hdf Hid Hcol Ha Hk).
  rewrite Hs. cbn [bind]. rewrite Ep. cbn [bind try_except].
  repeat split; try assumption.
  assert (Eid : API.client_id p
                = API.as_client_id
                    (row_get (iloc_at df k) "SK_ID_CURR" (Text "inconnu"))).
  { unfold API.format_prediction in Ep. rewrite Hc, Hi in Ep.
    cbn [bind] in Ep.
    destruct (if fgt income (Fin 0)
              then q <- truediv credit income;; Returns (Some (py_round q 3))
              else Returns None) as [ratio|e]; [|discriminate].
    cbn [bind] in Ep.
    destruct (API.compute_percentile (df_get df "AMT_CREDIT") credit)
      as [pc|e]; [|discriminate].
    destruct (API.compute_percentile (df_get df "AMT_INCOME_TOTAL") income)
      as [pi|e]; [|discriminate].
    cbn [bind] in Ep. injection Ep as <-. reflexivity. }
  rewrite Eid. apply as_client_id_of_match.
  apply (iloc_at_identifier df ids id k _ Hcol Hk Hbin).
Qed.

(** X12.  When the row that holds the requested client_id cannot be scored
    (an amount is a text that is no number), the fault is answered with
    status 500 and its message. *)
Theorem scoring_fault_is_answered_500 (fs : API.FileSystem) (args : API.Args)
        (df : DataFrame) (id : Z) (ids : Column) (k : nat) (e : exn) :
  API.get_dataset fs (API.arg_path args) = Returns df ->
  API.arg_client_id args = Some id ->
  df_get df "SK_ID_CURR" = Some ids ->
  aligned df (List.length ids) ->
  first_true (series_eq_int ids id) = Some k ->
  API.simple_risk_score (row_at df k) = Raises e ->
  API.predict_default fs args
  = Returns (API.mk_response (API.JsonError (exn_str e)) 500).
Proof.
  intros Hdf Hid Hcol Ha Hk Hs.
  unfold API.predict_default, API.api_error_handler.
  rewrite (view_after_checks fs args df id ids k Hdf Hid Hcol Ha Hk).
  unfold iloc_at. rewrite (simple_risk_score_interleave _ _ _ e Hs).
  reflexivity.
Qed.

(** X9.  Against a dataset that is not empty, a request whose client_id is
    absent, or is not an integer, is answered 400 with the message that the
    parameter is required. *)
Theorem client_id_is_required (fs : API.FileSystem) (args : API.Args)
        (df : DataFrame) :
  API.get_dataset fs (API.arg_path args) = Returns df ->
  df_empty df = false ->
  (assoc "client_id" args = None \/
   exists s, assoc "client_id" args = Some s /\ int_of_str s = None) ->
  API.predict_default fs args = Returns API.client_id_required /\
  API.resp_status API.client_id_required = 400%Z.
Proof.
  intros Hdf Hfull Hid.
  assert (Hnone : API.arg_client_id args = None).
  { unfold API.arg_client_id.
    destruct Hid as [-> | (s & -> & Hs)]; [reflexivity | exact Hs]. }
  unfold API.predict_default, API.api_error_handler, API.predict_default_view.
  rewrite Hdf. cbn [bind]. rewrite Hfull, Hnone. split; reflexivity.
Qed.

(** X10.  A dataset file that exists and cannot be read is answered 500
    with the reader's message, whatever the client_id: only a missing or
    empty dataset gets the 400. *)
Theorem unreadable_dataset_is_answered_500
        (fs : API.FileSystem) (args : API.Args) (e : exn) :
  fs (API.arg_path args) = Some (Raises e) ->
  API.predict_default fs args
  = Returns (API.mk_response (API.JsonError (exn_str e)) 500).
Proof.
  intros Hfs.
  unfold API.predict_default, API.api_error_handler, API.predict_default_view,
    API.get_dataset, API.load_dataset.
  rewrite Hfs. reflexivity.
Qed.

(** X13.  Every request to the route gets a response, whose status is 200,
    400, 404 or 500; it is 200 exactly when the body is a prediction. *)
Theorem predict_default_statuses (fs : API.FileSystem) (args : API.Args) :
  exists r,
    API.predict_default fs args = Returns r /\
    (API.resp_status r = 200%Z \/ API.resp_status r = 400%Z \/
     API.resp_status r = 404%Z \/ API.resp_status r = 500%Z) /\
    (API.resp_status r = 200%Z
     <-> exists p, API.resp_body r = API.JsonPrediction p).
Proof.
  unfold API.predict_default, API.api_error_handler, try_except.
  assert (Hview : forall r, API.predict_default_view fs args = Returns r ->
             (API.resp_status r = 400%Z \/ API.resp_status r = 404%Z) /\
             (exists m, API.resp_body r = API.JsonError m)
             \/ API.resp_status r = 200%Z /\
                (exists p, API.resp_body r = API.JsonPrediction p)).
  { intros r. unfold API.predict_default_view.
    destruct (API.get_dataset fs (API.arg_path args)) as [df|e];
      [|discriminate].
    cbn [bind]. destruct (df_empty df).
    { intros E. injection E as <-. left. split; [left; reflexivity|].
      eexists. reflexivity. }
    destruct (API.arg_client_id args) as [id|].
    2:{ intros E. injection E as <-. left. split; [left; reflexivity|].
        eexists. reflexivity. }
    destruct (df_getitem df "SK_ID_CURR") as [ids|e]; [|discriminate].
    cbn [bind].
    destruct (df_empty (df_filter df (series_eq_int ids id))).
    { intros E. injection E as <-. left. split; [right; reflexivity|].
      eexists. reflexivity. }
    destruct (iloc0 (dtypes df) (df_filter df (series_eq_int ids id)))
      as [row|e]; [|discriminate].
    cbn [bind].
    destruct (API.simple_risk_score row) as [score|e]; [|discriminate].
    cbn [bind].
    destruct (API.format_prediction row score df) as [p|e]; [|discriminate].
    cbn [bind]. intros E. injection E as <-. right.
    split; [reflexivity | eexists; reflexivity]. }
  destruct (API.predict_default_view fs args) as [r|e].
  - exists r. split; [reflexivity|].
    destruct (Hview r eq_refl) as [[Hst (m & Hm)] | [Hst (p & Hp)]].
    + split; [destruct Hst as [-> | ->]; auto|].
      split.
      * intros E. destruct Hst as [Hst|Hst]; rewrite Hst in E; discriminate E.
      * intros (p & Hp). rewrite Hm in Hp. discriminate Hp.
    + split; [left; exact Hst|]. split; [intros _; exists p; exact Hp|].
      intros _. exact Hst.
  - eexists. split; [reflexivity|]. cbn [API.resp_status API.resp_body].
    split; [right; right; right; reflexivity|].
    split; [discriminate|]. intros (p & Hp). discriminate Hp.
Qed.

End RouteMore.

(** * Properties of the client's page *)

Section PageProperties.
Context `{Runtime}.

Lemma compute_local_risk_source (row : Row) (r : Client.LocalRisk) :
  Client.compute_local_risk row = Returns r -> Client.source r = "local".
Proof.
  unfold Client.compute_local_risk.
  destruct (amount row "AMT_INCOME_TOTAL") as [income|e]; [|discriminate].
  destruct (amount row "AMT_CREDIT") as [credit|e]; [|discriminate].
  cbn [bind].
  destruct (if fgt income (Fin 0) then truediv credit income
            else Returns (lit (1 # 2))) as [ratio|e]; [|discriminate].
  cbn [bind].
  destruct (truediv ratio (lit 5)) as [p|e]; [|discriminate].
  cbn [bind]. intros E. injection E as <-. reflexivity.
Qed.

(** X18.  Given the text of an integer that binary64 holds exactly (every
    integer up to 2^53 in magnitude is one) and that the identifier column
    of the table holds, [get_client_row] returns the first row that holds
    it, as [iloc] gives that row, with no error; the identifier of that row
    is the requested one. *)
Theorem get_client_row_finds_first_match
        (fs : API.FileSystem) (path input : string) (d : DataFrame)
        (id : Z) (ids : Column) (k : nat) :
  int_of_str input = Some id ->
  df_get d "SK_ID_CURR" = Some ids ->
  aligned d (List.length ids) ->
  first_true (series_eq_int ids id) = Some k ->
  binary64_int id ->
  Page.get_client_row fs path input (Some d)
  = Returns (Some (iloc_at d k), None) /\
  cell_eq_int (row_get (iloc_at d k) "SK_ID_CURR" (Text "")) id = true.
Proof.
  intros Hin Hcol Ha Hk Hbin.
  assert (Hlen : List.length (series_eq_int ids id) = List.length ids).
  { unfold series_eq_int. apply length_map. }
  assert (Hne : d <> []).
  { intro E. rewrite E in Hcol. discriminate Hcol. }
  split.
  - unfold Page.get_client_row. rewrite Hin. cbn [bind].
    unfold df_getitem. unfold df_get in Hcol. rewrite Hcol. cbn [bind].
    rewrite <- Hlen in Ha.
    rewrite (df_filter_some d _ k Hne Ha Hk).
    rewrite (iloc0_filter d _ k Hne Ha Hk). reflexivity.
  - apply (iloc_at_identifier d ids id k _ Hcol Hk Hbin).
Qed.


(** X20.  The identifier is read before any table is touched: a text that
    is no integer gets the "numerique" message whatever the table, even
    when the default file is missing; with an integer, no table passed and
    the default file missing, the function raises [FileNotFoundError]
    instead of returning a message. *)
Theorem get_client_row_parses_before_loading
        (fs : API.FileSystem) (path input : string) :
  (int_of_str input = None ->
   forall df, Page.get_client_row fs path input df
              = Returns (None, Some Page.not_numeric)) /\
  (forall id, int_of_str input = Some id ->
              fs path = None ->
              Page.get_client_row fs path input None
              = Raises (Page.file_not_found path)).
Proof.
  split.
  - intros Hin df. unfold Page.get_client_row. rewrite Hin. reflexivity.
  - intros id Hin Hfs. unfold Page.get_client_row, Page.load_client_dataset.
    rewrite Hin, Hfs. reflexivity.
Qed.

(** X21.  Whenever [get_client_row] returns, it returns either a row and
    no error, or an error and no row. *)
Theorem get_client_row_row_xor_error
        (fs : API.FileSystem) (path input : string) (df : option DataFrame)
        (r : option Row * option string) :
  Page.get_client_row fs path input df = Returns r ->
  (exists row, r = (Some row, None)) \/ (exists msg, r = (None, Some msg)).
Proof.
  unfold Page.get_client_row.
  destruct (int_of_str input) as [id|].
  2:{ intros E. injection E as <-. right. eexists. reflexivity. }
  destruct (match df with
            | Some d => Returns d
            | None => Page.load_client_dataset fs path
            end) as [base|e]; [|discriminate].
  cbn [bind].
  destruct (df_getitem base "SK_ID_CURR") as [ids|e]; [|discriminate].
  cbn [bind].
  destruct (df_empty (df_filter base (series_eq_int ids id))).
  { intros E. injection E as <-. right. eexists. reflexivity. }
  destruct (iloc0 (dtypes base) (df_filter base (series_eq_int ids id)))
    as [row|e]; [|discriminate].
  cbn [bind]. intros E. injection E as <-. left. eexists. reflexivity.
Qed.

(** X22.  When the request fails, when the body cannot be decoded (the
    status being 200 or the body not empty), or when the status is not 200
    and the body is empty or a JSON object, the page is given the local
    assessment of the row, tagged "local", together with a message: the
    failure's text, the "error" of the reply when it has a truthy one, or
    the status otherwise.  A body that is JSON but no object (the status
    being 200 or the body not empty) is not covered by the fallback: the
    function raises the [AttributeError] of its [.get]. *)
Theorem fetch_falls_back_with_message (row : Row) (local : Client.LocalRisk) :
  Client.compute_local_risk row = Returns local ->
  Page.source (Page.of_local local) = "local" /\
  (forall m,
      Page.fetch_prediction_from_api (Page.Failed m) row
      = Returns (Page.of_local local, Some (Page.unavailable m))) /\
  (forall code empty m,
      code = 200%Z \/ empty = false ->
      Page.fetch_prediction_from_api
        (Page.Answered code empty (Page.BadJson m)) row
      = Returns (Page.of_local local, Some (Page.unavailable m))) /\
  (forall code payload,
      code <> 200%Z ->
      Page.jtruthy (Page.jget payload "error" Page.JNull) = true ->
      Page.fetch_prediction_from_api
        (Page.Answered code false (Page.Json payload)) row
      = Returns (Page.of_local local,
                 Some (Page.jget payload "error" Page.JNull))) /\
  (forall code payload,
      code <> 200%Z ->
      Page.jtruthy (Page.jget payload "error" Page.JNull) = false ->
      Page.fetch_prediction_from_api
        (Page.Answered code false (Page.Json payload)) row
      = Returns (Page.of_local local,
                 Some (Page.JString ("API status " ++ API.str_of_int code)))) /\
  (forall code js,
      code <> 200%Z ->
      Page.fetch_prediction_from_api (Page.Answered code true js) row
      = Returns (Page.of_local local,
                 Some (Page.JString ("API status " ++ API.str_of_int code)))) /\
  (forall code empty v,
      code = 200%Z \/ empty = false ->
      Page.fetch_prediction_from_api
        (Page.Answered code empty (Page.NotObject v)) row
      = Raises (Page.no_get v)).
Proof.
  intros Hl.
  assert (Hfb : forall msg, Page.fall_back row msg
                            = Returns (Page.of_local local, Some msg)).
  { intros msg. unfold Page.fall_back. rewrite Hl. reflexivity. }
  assert (Hne : forall code, code <> 200%Z -> Z.eqb code 200 = false).
  { intros code Hc. apply Z.eqb_neq, Hc. }
  split; [|split; [|split; [|split; [|split; [|split]]]]].
  - unfold Page.of_local. cbn [Page.source].
    apply (compute_local_risk_source row), Hl.
  - intros m. apply Hfb.
  - intros code empty m Hce. unfold Page.fetch_prediction_from_api.
    destruct (Z.eqb code 200) eqn:Ec; [apply Hfb|].
    destruct Hce as [-> | ->]; [discriminate Ec | apply Hfb].
  - intros code payload Hc Ht. unfold Page.fetch_prediction_from_api.
    rewrite (Hne code Hc), Ht. apply Hfb.
  - intros code payload Hc Ht. unfold Page.fetch_prediction_from_api.
    rewrite (Hne code Hc), Ht. apply Hfb.
  - intros code js Hc. unfold Page.fetch_prediction_from_api.
    rewrite (Hne code Hc). apply Hfb.
  - intros code empty v Hce. unfold Page.fetch_prediction_from_api.
    destruct (Z.eqb code 200) eqn:Ec; [reflexivity|].
    destruct Hce as [-> | ->]; [discriminate Ec | reflexivity].
Qed.

(** X23.  On a reply with status 200 the page shows the probability of the
    reply, with the tier the client computes for it, tagged "api" and with
    no message, whatever the row; a reply without the key shows 0.0 and
    "Faible"; a null probability raises a [TypeError] that the function
    does not catch. *)
Theorem fetch_shows_the_reply (content_empty : bool) (data : Page.jobject)
        (row : Row) :
  (forall score,
      Page.jfloat (Page.jget data "probability_default"
                             (Page.JNumber (Fin 0))) = Returns score ->
      exists a,
        Page.fetch_prediction_from_api
          (Page.Answered 200 content_empty (Page.Json data)) row
        = Returns (a, None) /\
        Page.risk_score a = score /\
        Page.risk_level a = Client.risk_level score /\
        Page.source a = "api") /\
  (assoc "probability_default" data = None ->
   exists a,
     Page.fetch_prediction_from_api
       (Page.Answered 200 content_empty (Page.Json data)) row
     = Returns (a, None) /\
     Page.risk_score a = Fin 0 /\
     Page.risk_level a = "Faible") /\
  (assoc "probability_default" data = Some Page.JNull ->
   Page.fetch_prediction_from_api
     (Page.Answered 200 content_empty (Page.Json data)) row
   = Raises Page.bad_float_argument).
Proof.
  split; [|split].
  - intros score Hs. unfold Page.fetch_prediction_from_api.
    cbn [Z.eqb Pos.eqb]. rewrite Hs. cbn [bind].
    eexists. split; [reflexivity|]. repeat split.
  - intros Ha. unfold Page.fetch_prediction_from_api, Page.jget.
    cbn [Z.eqb Pos.eqb]. rewrite Ha. cbn [Page.jfloat bind].
    eexists. split; [reflexivity|]. split; reflexivity.
  - intros Ha. unfold Page.fetch_prediction_from_api, Page.jget.
    cbn [Z.eqb Pos.eqb]. rewrite Ha. reflexivity.
Qed.

(** X24.  Whenever [fetch_prediction_from_api] returns, the result is
    tagged "api" and comes with no message, or is tagged "local" and comes
    with one: the tag tells whether a warning is shown. *)
Theorem fetch_tag_tells_warning (net : Page.exchange) (row : Row)
        (a : Page.Assessment) (err : option Page.jvalue) :
  Page.fetch_prediction_from_api net row = Returns (a, err) ->
  (Page.source a = "api" /\ err = None) \/
  (Page.source a = "local" /\ exists m, err = Some m).
Proof.
  assert (Hfb : forall msg, Page.fall_back row msg = Returns (a, err) ->
            Page.source a = "local" /\ exists m, err = Some m).
  { intros msg. unfold Page.fall_back.
    destruct (Client.compute_local_risk row) as [r|e] eqn:Hl; [|discriminate].
    cbn [bind]. intros E. injection E as <- <-.
    split; [|eexists; reflexivity].
    unfold Page.of_local. cbn [Page.source].
    apply (compute_local_risk_source row), Hl. }
  unfold Page.fetch_prediction_from_api.
  destruct net as [m|code empty js].
  - intros E. right. apply (Hfb _ E).
  - destruct (Z.eqb code 200).
    + destruct js as [data|v|m].
      * destruct (Page.jfloat _) as [score|e]; [|discriminate].
        cbn [bind]. intros E. injection E as <- <-.
        left. split; reflexivity.
      * discriminate.
      * intros E. right. apply (Hfb _ E).
    + destruct (if empty then Page.Json [] else js) as [payload|v|m];
        [|discriminate|]; intros E; right; apply (Hfb _ E).
Qed.

End PageProperties.

(** * Properties of the client's profile *)

(** ** Integers are binary64 values up to 2^53 *)

Lemma Qred_inject_Z (z : Z) : Qred (inject_Z z) = inject_Z z.
Proof.
  unfold Qred, inject_Z.
  pose proof (Z.ggcd_gcd z 1) as Hg.
  pose proof (Z.ggcd_correct_divisors z 1) as Hd.
  destruct (Z.ggcd z 1) as [g [aa bb]]. simpl in Hg, Hd.
  destruct Hd as [Ha Hb].
  rewrite Z.gcd_1_r in Hg. subst g.
  rewrite Z.mul_1_l in Ha, Hb. subst aa bb. reflexivity.
Qed.

Lemma rnd_inject_Z (z : Z) :
  (Z.abs z < 2 ^ 53)%Z -> rnd (inject_Z z) = inject_Z z.
Proof.
  intros Hz.
  destruct (Z.eq_dec z 0) as [->|Hnz]; [reflexivity|].
  apply rnd_is_value; [apply Qred_inject_Z|].
  assert (Hq : ~ inject_Z z == 0).
  { intro E. apply Hnz. unfold Qeq in E. simpl in E. lia. }
  rewrite (rnd_nonzero _ Hq).
  set (e := ulp_exponent (inject_Z z)).
  assert (Habs : Qabs (inject_Z z) = inject_Z (Z.abs z)) by reflexivity.
  assert (Hl : (0 <= ilog2 (inject_Z (Z.abs z)) <= 52)%Z).
  { destruct (ilog2_spec (inject_Z (Z.abs z))) as [Sl Su].
    { change 0 with (inject_Z 0). rewrite <- Zlt_Qlt. lia. }
    split.
    - assert (H1 : pow2 0 <= inject_Z (Z.abs z)).
      { change (pow2 0) with (inject_Z 1). rewrite <- Zle_Qle. lia. }
      assert (0 < ilog2 (inject_Z (Z.abs z)) + 1)%Z
        by (apply pow2_lt_inv; lra).
      lia.
    - assert (H2 : inject_Z (Z.abs z) < pow2 53).
      { rewrite (pow2_inject 53) by lia. rewrite <- Zlt_Qlt. exact Hz. }
      assert (ilog2 (inject_Z (Z.abs z)) < 53)%Z by (apply pow2_lt_inv; lra).
      lia. }
  assert (He : (- 52 <= e <= 0)%Z).
  { unfold e, ulp_exponent. rewrite Habs. lia. }
  assert (Hu : pow2 e * inject_Z (2 ^ (- e)) == 1).
  { rewrite <- (pow2_inject (- e)) by lia. rewrite <- pow2_add.
    replace (e + - e)%Z with 0%Z by lia. reflexivity. }
  pose proof (pow2_pos e) as Hpos.
  assert (Hscaled : inject_Z z / pow2 e == inject_Z (z * 2 ^ (- e))).
  { assert (Hinv : / pow2 e == inject_Z (2 ^ (- e))).
    { rewrite <- (Qmult_1_r (/ pow2 e)), <- Hu. field. lra. }
    unfold Qdiv. rewrite Hinv, inject_Z_mult. reflexivity. }
  rewrite (round_half_even_comp _ _ Hscaled), round_half_even_Z.
  rewrite inject_Z_mult.
  rewrite <- Qmult_assoc, (Qmult_comm (inject_Z (2 ^ (- e)))), Hu. ring.
Qed.

Lemma Qtrunc_inject_Z (z : Z) : Qtrunc (inject_Z z) = z.
Proof. unfold Qtrunc. simpl. apply Z.quot_1_r. Qed.

(** The interpreter's floor division of a natural number below 2^53 by 365
    is the integer quotient. *)
Lemma floordiv_365 (a : Z) :
  (0 <= a < 2 ^ 53)%Z ->
  floordiv_finite (inject_Z a) 365 = inject_Z (a / 365).
Proof.
  intros Ha.
  pose proof (Z.div_mod a 365 ltac:(discriminate)) as Hdm.
  pose proof (Z.mod_pos_bound a 365 eq_refl) as Hm.
  assert (Hn0 : (0 <= a / 365)%Z) by (apply Z.div_pos; lia).
  set (n := (a / 365)%Z) in *. set (m := (a mod 365)%Z) in *.
  assert (Htr : Qtrunc (inject_Z a / 365) = n).
  { unfold Qtrunc, Qdiv, Qmult, Qinv. simpl.
    rewrite Z.mul_1_r. apply Z.quot_div_nonneg; lia. }
  assert (Hmod : fmod (inject_Z a) 365 == inject_Z m).
  { unfold fmod. rewrite Htr.
    replace m with (a - n * 365)%Z by lia.
    unfold Z.sub. rewrite inject_Z_plus, inject_Z_opp, inject_Z_mult.
    reflexivity. }
  assert (Hm0 : 0 <= inject_Z m).
  { change 0 with (inject_Z 0). rewrite <- Zle_Qle. lia. }
  assert (Hdiff : rnd (inject_Z a - fmod (inject_Z a) 365)
                  = inject_Z (365 * n)).
  { rewrite (rnd_comp _ (inject_Z (365 * n))).
    - apply rnd_inject_Z. lia.
    - rewrite Hmod. replace a with (365 * n + m)%Z at 1 by lia.
      rewrite inject_Z_plus. ring. }
  assert (Hdiv : rnd (inject_Z (365 * n) / 365) = inject_Z n).
  { rewrite (rnd_comp _ (inject_Z n)).
    - apply rnd_inject_Z. lia.
    - rewrite inject_Z_mult. field. }
  assert (Hsign : Qlt_bool (fmod (inject_Z a) 365) 0 = false).
  { apply Qlt_bool_false_iff. rewrite Hmod. exact Hm0. }
  unfold floordiv_finite. cbv zeta.
  rewrite Hdiff, Hdiv, Hsign.
  change (Qlt_bool 365 0) with false. cbn [Bool.eqb negb].
  rewrite andb_false_r.
  destruct (Qeq_bool (inject_Z n) 0) eqn:E0.
  - apply Qeq_bool_iff in E0. unfold Qeq in E0. simpl in E0.
    replace n with 0%Z by lia. reflexivity.
  - rewrite Qfloor_Z.
    rewrite (rnd_zero (inject_Z n - inject_Z n)) by ring.
    reflexivity.
Qed.

Section ProfileProperties.
Context `{Runtime}.

Lemma snapshot_ratio_returns (credit : pyfloat) (income : pyfloat) :
  exists ratio,
    (if fgt income (Fin 0)
     then q <- truediv credit income ;; Returns (Some (py_round q 2))
     else Returns None) = Returns ratio /\
    (fgt income (Fin 0) = false -> ratio = None) /\
    (forall c i, credit = Fin c -> income = Fin i -> 0 < i ->
                 ratio = Some (py_round (Fin (rnd (c / i))) 2)).
Proof.
  destruct (fgt income (Fin 0)) eqn:Hpos.
  - destruct (flt_finite _ _ Hpos) as (z & i & Ez & -> & Hzi).
    injection Ez as <-.
    destruct credit as [c|].
    + rewrite truediv_finite by lra. eexists.
      split; [reflexivity|]. split; [discriminate|].
      intros c' i' Ec Ei _. injection Ec as <-. injection Ei as <-.
      reflexivity.
    + unfold truediv.
      assert (Hnz : Qeq_bool i 0 = false).
      { destruct (Qeq_bool i 0) eqn:E; [|reflexivity].
        apply Qeq_bool_iff in E. lra. }
      rewrite Hnz. eexists. split; [reflexivity|]. split; [discriminate|].
      intros c i' Ec. discriminate Ec.
  - exists None. split; [reflexivity|]. split; [reflexivity|].
    intros c i _ -> Hi. apply flt_Fin in Hi. unfold fgt in Hpos.
    rewrite Hi in Hpos. discriminate Hpos.
Qed.

(** X25.  For a row whose birth is a whole number of days (negative, as in
    the file, or not) below 2^53 in magnitude, the profile gives the age as
    the number of whole 365-day years in it; its identifier and label are
    those of the row's SK_ID_CURR. *)
Theorem snapshot_age_and_identity (row : Row) (credit income : pyfloat)
        (d id : Z) :
  amount row "AMT_CREDIT" = Returns credit ->
  amount row "AMT_INCOME_TOTAL" = Returns income ->
  assoc "DAYS_BIRTH" row = Some (Num (Fin (inject_Z d))) ->
  (Z.abs d < 2 ^ 53)%Z ->
  py_int (assoc "SK_ID_CURR" row) = Returns id ->
  exists info,
    Profile.build_client_snapshot row = Returns info /\
    Profile.age info = Some (Z.abs d / 365)%Z /\
    Profile.client_id info = id /\
    Profile.label info = "Client " ++ API.str_of_int id.
Proof.
  intros Hc Hi Hd Hbound Hid.
  unfold Profile.build_client_snapshot.
  rewrite Hi, Hc. cbn [bind].
  destruct (snapshot_ratio_returns credit income) as (ratio & -> & _).
  cbn [bind]. rewrite Hd. cbn [notna py_float bind py_abs].
  change (Qabs (inject_Z d)) with (inject_Z (Z.abs d)).
  unfold py_floordiv. change (Qeq_bool 365 0) with false. cbv iota.
  rewrite floordiv_365 by lia.
  cbn [bind int_of_float]. rewrite Qtrunc_inject_Z.
  rewrite Hid. cbn [bind].
  eexists. split; [reflexivity|]. repeat split.
Qed.

(** X26.  A row with no birth date (no such column, or a missing value)
    has no age in its profile. *)
Theorem snapshot_without_birth (row : Row) (credit income : pyfloat) (id : Z) :
  amount row "AMT_CREDIT" = Returns credit ->
  amount row "AMT_INCOME_TOTAL" = Returns income ->
  (assoc "DAYS_BIRTH" row = None \/ assoc "DAYS_BIRTH" row = Some (Num NaN)) ->
  py_int (assoc "SK_ID_CURR" row) = Returns id ->
  exists info,
    Profile.build_client_snapshot row = Returns info /\
    Profile.age info = None.
Proof.
  intros Hc Hi Hd Hid.
  unfold Profile.build_client_snapshot.
  rewrite Hi, Hc. cbn [bind].
  destruct (snapshot_ratio_returns credit income) as (ratio & -> & _).
  cbn [bind].
  destruct Hd as [-> | ->]; cbn [notna bind]; rewrite Hid; cbn [bind];
    eexists; split; reflexivity.
Qed.

(** X27.  A row without identifier never gives a profile: the function
    raises.  When the amounts of the row can be read and its birth date is
    absent, missing, or read by [float] as a finite number, what it raises
    is the [TypeError] of [int(None)]; a birth date that is a text [float]
    cannot read raises that [ValueError] before the identifier is looked
    at. *)
Theorem snapshot_needs_identifier (row : Row) :
  assoc "SK_ID_CURR" row = None ->
  (exists e, Profile.build_client_snapshot row = Raises e) /\
  (forall credit income,
      amount row "AMT_CREDIT" = Returns credit ->
      amount row "AMT_INCOME_TOTAL" = Returns income ->
      (assoc "DAYS_BIRTH" row = None \/
       assoc "DAYS_BIRTH" row = Some (Num NaN) \/
       exists c d, assoc "DAYS_BIRTH" row = Some c /\
                   py_float c = Returns (Fin d)) ->
      Profile.build_client_snapshot row = Raises int_of_none) /\
  (forall credit income s,
      amount row "AMT_CREDIT" = Returns credit ->
      amount row "AMT_INCOME_TOTAL" = Returns income ->
      assoc "DAYS_BIRTH" row = Some (Text s) ->
      float_of_str s = None ->
      Profile.build_client_snapshot row = Raises (not_a_float s)).
Proof.
  intros Hid. unfold Profile.build_client_snapshot. rewrite Hid.
  split; [|split].
  - destruct (amount row "AMT_INCOME_TOTAL") as [income|e];
      [|eexists; reflexivity].
    destruct (amount row "AMT_CREDIT") as [credit|e];
      [|eexists; reflexivity].
    cbn [bind].
    destruct (snapshot_ratio_returns credit income) as (ratio & -> & _).
    cbn [bind].
    match goal with
    | |- exists e, (age <- ?a ;; _) = _ => destruct a as [age|e]
    end; eexists; reflexivity.
  - intros credit income Hc Hi Hd.
    rewrite Hi, Hc. cbn [bind].
    destruct (snapshot_ratio_returns credit income) as (ratio & -> & _).
    cbn [bind].
    destruct Hd as [-> | [-> | (c & d & -> & Hf)]];
      [reflexivity | reflexivity |].
    assert (Hn : notna (Some c) = true).
    { destruct c as [[q|]|s]; [reflexivity | discriminate Hf | reflexivity]. }
    rewrite Hn, Hf. cbn [bind py_abs].
    unfold py_floordiv. change (Qeq_bool 365 0) with false. cbv iota.
    reflexivity.
  - intros credit income s Hc Hi Hd Hs.
    rewrite Hi, Hc. cbn [bind].
    destruct (snapshot_ratio_returns credit income) as (ratio & -> & _).
    cbn [bind]. rewrite Hd. cbn [notna py_float]. rewrite Hs. reflexivity.
Qed.

Variable number_text : Q -> string.

Lemma snapshot_ratio_field (row : Row) (c i : Q) (info : Profile.Snapshot) :
  amount row "AMT_CREDIT" = Returns (Fin c) ->
  amount row "AMT_INCOME_TOTAL" = Returns (Fin i) ->
  0 < i ->
  Profile.build_client_snapshot row = Returns info ->
  Profile.ratio info = Some (py_round (Fin (rnd (c / i))) 2).
Proof.
  intros Hc Hi Hi0. unfold Profile.build_client_snapshot.
  rewrite Hi, Hc. cbn [bind].
  destruct (snapshot_ratio_returns (Fin c) (Fin i)) as (ratio & -> & _ & Hr).
  rewrite (Hr c i eq_refl eq_refl Hi0). cbn [bind].
  destruct (if notna (assoc "DAYS_BIRTH" row)
            then
              days <- py_float match assoc "DAYS_BIRTH" row with
                               | Some c0 => c0
                               | None => Num NaN
                               end;;
              years <- py_floordiv (py_abs days) (Fin 365);;
              n <- int_of_float years;; Returns (Some n)
            else Returns None) as [age|e]; [|discriminate].
  cbn [bind].
  destruct (py_int (assoc "SK_ID_CURR" row)) as [id|e]; [|discriminate].
  cbn [bind]. intros E. injection E as <-. reflexivity.
Qed.

(** X14.  The point of vigilance follows the amounts: a profile made of a
    row whose credit does not exceed its (positive) income has none, and
    one made of a row whose credit is at least 1.01 times its income has
    the remark that the credit is above the income. *)
Theorem vigilance_follows_the_amounts
        (row : Row) (c i : Q) (info : Profile.Snapshot) :
  amount row "AMT_CREDIT" = Returns (Fin c) ->
  amount row "AMT_INCOME_TOTAL" = Returns (Fin i) ->
  0 < i ->
  Profile.build_client_snapshot row = Returns info ->
  (c <= i ->
   snd (Profile.build_influence_factors number_text info) = []) /\
  (101 * i <= 100 * c ->
   snd (Profile.build_influence_factors number_text info)
   = [Profile.credit_above_income]).
Proof.
  intros Hc Hi Hi0 Hinfo.
  pose proof (snapshot_ratio_field row c i info Hc Hi Hi0 Hinfo) as Hr.
  unfold Profile.build_influence_factors. cbv zeta. rewrite Hr.
  split.
  - intros Hle.
    assert (Hq : rnd (c / i) <= 1).
    { apply rnd_le_value; [reflexivity|]. apply Qle_shift_div_r; lra. }
    pose proof (py_round_le _ 1 2 Hq) as Hu.
    change (py_round (Fin 1) 2) with (Fin 1) in Hu.
    assert (Hgt : fgt (py_round (Fin (rnd (c / i))) 2) (lit 1) = false).
    { unfold fgt. change (lit 1) with (Fin 1). apply fle_not_flt, Hu. }
    rewrite Hgt.
    destruct (flt (py_round (Fin (rnd (c / i))) 2) (lit (4 # 10)));
      reflexivity.
  - intros Hge.
    assert (Hq : rnd (101 # 100) <= rnd (c / i)).
    { apply rnd_le. apply Qle_shift_div_l; [exact Hi0|].
      setoid_replace ((101 # 100) * i) with ((101 * i) / 100) by field.
      apply Qle_shift_div_r; lra. }
    pose proof (py_round_le _ _ 2 Hq) as Hl.
    destruct (fle_finite _ _ Hl) as (t & r & Et & Er & Htr).
    rewrite Er.
    assert (Ht : t = rnd (101 # 100)).
    { vm_compute in Et. injection Et as <-. vm_compute. reflexivity. }
    assert (H04 : rnd (4 # 10) <= t) by (rewrite Ht; vm_compute; discriminate).
    assert (H1 : 1 < t) by (rewrite Ht; vm_compute; reflexivity).
    assert (Hlow : flt (Fin r) (lit (4 # 10)) = false).
    { unfold lit. apply Qlt_bool_false_iff. lra. }
    assert (Hhigh : fgt (Fin r) (lit 1) = true).
    { unfold fgt. change (lit 1) with (Fin 1). apply flt_Fin. lra. }
    rewrite Hlow, Hhigh. reflexivity.
Qed.

(** X28.  A missing housing type ([NaN] in the file) counts as given: the
    profile's positive points list "Logement: nan". *)
Theorem missing_housing_is_listed (info : Profile.Snapshot) :
  Profile.housing info = Some (Num NaN) ->
  In "Logement: nan"
     (fst (Profile.build_influence_factors number_text info)).
Proof.
  intros Hh. unfold Profile.build_influence_factors. cbv zeta.
  rewrite Hh. cbn [fst Profile.given cell_truthy Profile.cell_text].
  apply in_or_app. right. apply in_or_app. right.
  left. reflexivity.
Qed.

End ProfileProperties.

(** * The further properties at sample inputs *)

Section MoreSamples.
#[local] Existing Instance example_runtime.

Lemma score_never_above_one_witness :
  exists s, API.simple_risk_score (client_row (-1000) 1000) = Returns (Fin s)
            /\ s <= 1.
Proof.
  apply (@score_never_above_one example_runtime (client_row (-1000) 1000)
           (-1000) 1000); reflexivity.
Defined.

Lemma score_in_unit_interval_witness :
  exists s, API.simple_risk_score (client_row 10000 20000) = Returns (Fin s)
            /\ 0 <= s <= 1.
Proof.
  apply (@score_in_unit_interval example_runtime (client_row 10000 20000)
           10000 20000); [reflexivity | reflexivity | discriminate].
Defined.

Lemma score_saturates_witness :
  API.simple_risk_score (client_row 70000 10000) = Returns (Fin 1).
Proof.
  apply (@score_saturates_at_five example_runtime (client_row 70000 10000)
           70000 10000); [reflexivity | reflexivity | reflexivity | discriminate].
Defined.

Lemma score_monotone_witness :
  exists s1 s2,
    API.simple_risk_score (client_row 10000 20000) = Returns (Fin s1) /\
    API.simple_risk_score (client_row 30000 20000) = Returns (Fin s2) /\
    s1 <= s2.
Proof.
  apply (@score_monotone_in_credit example_runtime
           (client_row 10000 20000) (client_row 30000 20000)
           10000 30000 20000);
    [reflexivity | reflexivity | reflexivity | reflexivity | reflexivity
    | discriminate].
Defined.

Lemma fallback_agrees_witness :
  exists s, API.simple_risk_score (client_row 10000 20000) = Returns s /\
            local_risk_score (client_row 10000 20000) = Returns s.
Proof.
  apply (@fallback_agrees_on_scoreable_rows example_runtime
           (client_row 10000 20000) 10000 20000);
    [reflexivity | reflexivity | discriminate | reflexivity].
Defined.

Lemma local_score_witness :
  exists s, local_risk_score (client_row (-1000) 0) = Returns (Fin s)
            /\ 0 <= s <= 1.
Proof.
  apply (@local_score_in_unit_interval example_runtime
           (client_row (-1000) 0) (-1000) 0); reflexivity.
Defined.

Lemma missing_income_witness :
  API.simple_risk_score missing_income_row = Returns NaN /\
  exists p,
    API.format_prediction missing_income_row NaN two_clients = Returns p /\
    API.probability_default p = NaN /\
    API.prediction p = "remboursement_normal" /\
    API.risk_level p = "faible" /\
    API.ratio_credit_income p = None.
Proof.
  apply (@missing_income_gives_nan_score example_runtime missing_income_row
           (Fin 10000) two_clients); reflexivity.
Defined.

Lemma client_tier_witness :
  exists p,
    API.format_prediction (client_row 50000 10000) (Fin 1) two_clients
    = Returns p /\
    (API.risk_level p = "eleve" <-> Client.risk_level (Fin 1) = "Eleve").
Proof.
  eexists. split; [reflexivity|].
  apply (@client_tier_matches_service_tier example_runtime
           (client_row 50000 10000) (Fin 1) two_clients).
  reflexivity.
Defined.

Lemma percentile_range_witness :
  exists p,
    API.compute_percentile (Some [num 10000; num 50000]) (Fin 20000)
    = Returns (Some (Fin p)) /\ 0 <= p <= 100.
Proof.
  apply (percentile_between_0_and_100 [num 10000; num 50000] (Fin 20000));
    [discriminate | reflexivity].
Defined.


Lemma known_client_witness :
  exists p,
    API.predict_default more_files [("client_id", "2"); ("path", "clients.csv")]
    = Returns (API.mk_response (API.JsonPrediction p) 200) /\
    API.format_prediction (iloc_at two_clients 1) (Fin 1) two_clients
    = Returns p /\
    API.client_id p = inl 2%Z /\
    API.probability_default p = Fin 1.
Proof.
  apply (@known_client_is_scored example_runtime more_files
           [("client_id", "2"); ("path", "clients.csv")]
           two_clients 2%Z [num 1; num 2] 1%nat (Fin 1));
    try reflexivity.
  repeat constructor.
Defined.

(** Beyond binary64 the identifier of the answer need not be the requested
    one: in a table with a column of floats the row is a series of floats,
    and the client 2^53 + 1 is answered as the client 2^53, be the floats
    fractional or whole numbers written as decimals; in a table of integers
    the identifier is kept. *)
Lemma identifier_beyond_binary64 :
  (exists p,
      API.predict_default large_id_files
        [("client_id", "9007199254740993"); ("path", "floats.csv")]
      = Returns (API.mk_response (API.JsonPrediction p) 200) /\
      API.client_id p = inl 9007199254740992%Z) /\
  (exists p,
      @API.predict_default decimal_amounts_runtime large_id_files
        [("client_id", "9007199254740993"); ("path", "integers.csv")]
      = Returns (API.mk_response (API.JsonPrediction p) 200) /\
      API.client_id p = inl 9007199254740992%Z) /\
  (exists p,
      API.predict_default large_id_files
        [("client_id", "9007199254740993"); ("path", "integers.csv")]
      = Returns (API.mk_response (API.JsonPrediction p) 200) /\
      API.client_id p = inl 9007199254740993%Z) /\
  (exists r,
      Page.get_client_row large_id_files "floats.csv" "9007199254740993" None
      = Returns (Some r, None) /\
      assoc "SK_ID_CURR" r = Some (num 9007199254740992)).
Proof.
  split; [|split; [|split]]; eexists; vm_compute; split; reflexivity.
Qed.

Lemma scoring_fault_witness :
  API.predict_default more_files [("client_id", "2"); ("path", "text.csv")]
  = Returns (API.mk_response
               (API.JsonError "could not convert string to float: 'abc'") 500).
Proof.
  apply (@scoring_fault_is_answered_500 example_runtime more_files
           [("client_id", "2"); ("path", "text.csv")]
           text_credit 2%Z [num 1; num 2] 1%nat (not_a_float "abc"));
    try reflexivity.
  repeat constructor.
Defined.

Lemma client_id_required_witness :
  API.predict_default more_files [("client_id", "abc"); ("path", "clients.csv")]
  = Returns API.client_id_required /\
  API.resp_status API.client_id_required = 400%Z.
Proof.
  apply (@client_id_is_required example_runtime more_files
           [("client_id", "abc"); ("path", "clients.csv")] two_clients);
    [reflexivity | reflexivity|].
  right. exists "abc". split; reflexivity.
Defined.

Lemma unreadable_dataset_witness :
  API.predict_default more_files [("client_id", "1"); ("path", "broken.csv")]
  = Returns (API.mk_response (API.JsonError "Error tokenizing data.") 500).
Proof.
  apply (@unreadable_dataset_is_answered_500 example_runtime more_files
           [("client_id", "1"); ("path", "broken.csv")] parser_error).
  reflexivity.
Defined.

Lemma get_client_row_found_witness :
  Page.get_client_row more_files "clients.csv" "2" (Some two_clients)
  = Returns (Some (iloc_at two_clients 1), None) /\
  cell_eq_int (row_get (iloc_at two_clients 1) "SK_ID_CURR" (Text "")) 2 = true.
Proof.
  apply (@get_client_row_finds_first_match example_runtime more_files
           "clients.csv" "2" two_clients 2%Z [num 1; num 2] 1%nat);
    try reflexivity.
  repeat constructor.
Defined.


Lemma get_client_row_xor_witness :
  (exists row, (Some (row_at two_clients 1), @None string) = (Some row, None))
  \/ (exists msg, (Some (row_at two_clients 1), @None string) = (None, Some msg)).
Proof.
  apply (@get_client_row_row_xor_error example_runtime more_files
           "clients.csv" "2" (Some two_clients)).
  reflexivity.
Defined.

Lemma fetch_falls_back_witness :
  Page.fetch_prediction_from_api
    (Page.Answered 404 false
       (Page.Json [("error", Page.JString "Client 7 introuvable")]))
    (client_row 10000 20000)
  = Returns ({| Page.risk_score := lit (1 # 10);
                Page.risk_level := "Faible";
                Page.recommendation :=
                  Page.JString
                    "Score calcule localement sur le ratio credit/revenu.";
                Page.source := "local" |},
             Some (Page.JString "Client 7 introuvable")) /\
  Page.fetch_prediction_from_api
    (Page.Answered 500 false (Page.NotObject Page.JsonList))
    (client_row 10000 20000)
  = Raises (mk_exn (OtherException "AttributeError")
                   "'list' object has no attribute 'get'").
Proof.
  pose proof (@fetch_falls_back_with_message example_runtime
                (client_row 10000 20000)
                {| Client.risk_score := lit (1 # 10);
                   Client.risk_level_label := "Faible";
                   Client.recommendation :=
                     "Score calcule localement sur le ratio credit/revenu.";
                   Client.source := "local" |}
                ltac:(vm_compute; reflexivity))
    as (_ & _ & _ & Herror & _ & _ & Hother).
  split.
  - apply (Herror 404%Z [("error", Page.JString "Client 7 introuvable")]);
      [discriminate | reflexivity].
  - apply (Hother 500%Z false Page.JsonList). right. reflexivity.
Defined.

Lemma fetch_tag_witness :
  (Page.source {| Page.risk_score := Fin 1;
                  Page.risk_level := "Eleve";
                  Page.recommendation :=
                    Page.JString "Recommandation issue de l'API.";
                  Page.source := "api" |} = "api" /\ @None Page.jvalue = None)
  \/ (Page.source {| Page.risk_score := Fin 1;
                     Page.risk_level := "Eleve";
                     Page.recommendation :=
                       Page.JString "Recommandation issue de l'API.";
                     Page.source := "api" |} = "local"
      /\ exists m, @None Page.jvalue = Some m).
Proof.
  apply (@fetch_tag_tells_warning example_runtime
           (Page.Answered 200 false
              (Page.Json [("probability_default", Page.JNumber (Fin 1))]))
           (client_row 10000 20000)).
  vm_compute. reflexivity.
Defined.

Lemma snapshot_age_witness :
  exists info,
    Profile.build_client_snapshot profile_row = Returns info /\
    Profile.age info = Some 25%Z /\
    Profile.client_id info = 100002%Z /\
    Profile.label info = "Client 100002".
Proof.
  apply (@snapshot_age_and_identity example_runtime profile_row
           (Fin 406597) (Fin 202500) (-9461)%Z 100002%Z); reflexivity.
Defined.

Lemma snapshot_without_birth_witness :
  exists info,
    Profile.build_client_snapshot undated_row = Returns info /\
    Profile.age info = None.
Proof.
  apply (@snapshot_without_birth example_runtime undated_row
           (Fin 10000) (Fin 20000) 100003%Z);
    [reflexivity | reflexivity | left; reflexivity | reflexivity].
Defined.

Lemma snapshot_needs_identifier_witness :
  Profile.build_client_snapshot anonymous_row = Raises int_of_none /\
  Profile.build_client_snapshot anonymous_dated_row = Raises int_of_none /\
  Profile.build_client_snapshot anonymous_misdated_row
  = Raises (not_a_float "abc").
Proof.
  split; [|split].
  - apply (proj1 (proj2
             (@snapshot_needs_identifier example_runtime anonymous_row
                eq_refl))
             (Fin 10000) (Fin 20000)); [reflexivity | reflexivity|].
    left. reflexivity.
  - apply (proj1 (proj2
             (@snapshot_needs_identifier example_runtime anonymous_dated_row
                eq_refl))
             (Fin 10000) (Fin 20000)); [reflexivity | reflexivity|].
    right. right. exists (num (-9461)), (inject_Z (-9461)).
    split; reflexivity.
  - apply (proj2 (proj2
             (@snapshot_needs_identifier example_runtime anonymous_misdated_row
                eq_refl))
             (Fin 10000) (Fin 20000) "abc"); reflexivity.
Defined.

Lemma vigilance_witness :
  exists info,
    Profile.build_client_snapshot profile_row = Returns info /\
    snd (Profile.build_influence_factors no_text info)
    = [Profile.credit_above_income].
Proof.
  eexists. split; [vm_compute; reflexivity|].
  apply (@vigilance_follows_the_amounts example_runtime no_text profile_row
           406597 202500); try reflexivity.
  discriminate.
Defined.

Lemma absent_income_witness :
  API.simple_risk_score no_income_row = Returns (Fin (1 # 2)) /\
  forall score df, reported_ratio no_income_row score df = Returns None.
Proof.
  apply (@absent_income_gives_neutral_score example_runtime no_income_row
           (Fin 10000)); reflexivity.
Defined.

Lemma missing_housing_witness :
  exists info,
    Profile.build_client_snapshot undated_row = Returns info /\
    In "Logement: nan" (fst (Profile.build_influence_factors no_text info)).
Proof.
  eexists. split; [vm_compute; reflexivity|].
  apply (missing_housing_is_listed no_text). reflexivity.
Defined.

End MoreSamples.
